(** * MoltSales: the four-phase sales prompt router

    A shallow embedding of [src/router.py] (class [SalesPromptRouter]) and of
    [src/api.py] (the four FastAPI path operations), with the properties the
    specification states about them.

    Python values that come from JSON ([Dict[str, Any]], [List[str]], ...)
    are values of type [json]; a method of the router is a computation in
    the monad [M], which threads the router object and the trace of calls to
    the external collaborators, and which may raise.  Console output
    ([print], [traceback.print_exc]) is not part of the model. *)

(** Beyond the four phases and the endpoints, the development covers
    [init_vector_db], which builds the index, and the run of the pipeline
    under [if __name__ == "__main__"].  [load_data] and [__init__] are left
    out: they store whatever JSON the two data files hold, and the router
    here is typed as holding a corpus that is a list of dicts. *)

From Stdlib Require Import String Ascii List ZArith Bool Lia.
From Stdlib Require Import Sorting.Sorted Sorting.Permutation DecimalString.
Import ListNotations.
Local Open Scope string_scope.
Local Open Scope Z_scope.

Set Implicit Arguments.
Local Set Warnings "-register-all".

(* ================================================================== *)
(** ** Python values *)
(* ================================================================== *)

(** What [json.load] produces and [json.dumps] consumes.  A float keeps its
    lexeme: no arithmetic is ever done on one. *)
Inductive json : Type :=
| JNull
| JBool (b : bool)
| JNum (n : Z)
| JFloat (lexeme : string)
| JStr (s : string)
| JArr (items : list json)
| JObj (fields : list (string * json)).

(** A [dict] with string keys, in insertion order; keys are distinct. *)
Definition pydict : Type := list (string * json).

Fixpoint dict_get (d : pydict) (k : string) : option json :=
  match d with
  | [] => None
  | (k', v) :: rest => if String.eqb k' k then Some v else dict_get rest k
  end.

(** [d[k] = v]: overwrite in place, or append a new key. *)
Fixpoint dict_set (d : pydict) (k : string) (v : json) : pydict :=
  match d with
  | [] => [(k, v)]
  | (k', v') :: rest =>
      if String.eqb k' k then (k', v) :: rest else (k', v') :: dict_set rest k v
  end.

Definition dict_keys (d : pydict) : list string := map fst d.

(** [bool(d)]: a dict is falsy exactly when it is empty. *)
Definition dict_truthy (d : pydict) : bool :=
  match d with [] => false | _ :: _ => true end.

(** [v == s] for a JSON value [v] and a [str] [s]. *)
Definition eq_str (v : json) (s : string) : bool :=
  match v with
  | JStr t => String.eqb t s
  | _ => false
  end.

Definition mem_str (s : string) (l : list string) : bool :=
  existsb (String.eqb s) l.

Definition dquote : string := String (ascii_of_nat 34) EmptyString.
Definition squote : string := String (ascii_of_nat 39) EmptyString.
Definition nl : string := String (ascii_of_nat 10) EmptyString.

(* ================================================================== *)
(** ** Exceptions and the effect monad *)
(* ================================================================== *)

(** An exception: its class name and [str(e)]. *)
Record exn : Type := mkExn { exn_class : string; exn_str : string }.

(** [d[k]] on a missing key. [str(KeyError(k))] is [repr(k)]; the keys the
    program indexes with are the literals ['id'] and ['template']. *)
Definition KeyError (k : string) : exn :=
  mkExn "KeyError" (squote ++ k ++ squote).

Inductive outcome (A : Type) : Type :=
| Return (a : A)
| Raise (e : exn).
Arguments Return {A} a.
Arguments Raise {A} e.

Module Effects.

Section Monad.
(** [S] is the mutable state a computation runs on, [E] the type of the
    calls to collaborators it records. *)
Variables S E : Type.

Definition M (A : Type) : Type := S -> list E -> outcome A * S * list E.

Definition ret {A} (a : A) : M A := fun s t => (Return a, s, t).

Definition bind {A B} (c : M A) (k : A -> M B) : M B :=
  fun s t =>
    match c s t with
    | (Return a, s', t') => k a s' t'
    | (Raise e, s', t') => (Raise e, s', t')
    end.

Definition raise {A} (e : exn) : M A := fun s t => (Raise e, s, t).

(** [try: c  except Exception as e: h e]. *)
Definition try_except {A} (c : M A) (h : exn -> M A) : M A :=
  fun s t =>
    match c s t with
    | (Return a, s', t') => (Return a, s', t')
    | (Raise e, s', t') => h e s' t'
    end.

Definition get : M S := fun s t => (Return s, s, t).
Definition put (s : S) : M unit := fun _ t => (Return tt, s, t).

(** Record a call to a collaborator. *)
Definition emit (e : E) : M unit := fun s t => (Return tt, s, (t ++ [e])%list).

(** Lift an [outcome] computed outside the monad. *)
Definition lift {A} (o : outcome A) : M A := fun s t => (o, s, t).
End Monad.

Arguments ret {S E A} a.
Arguments raise {S E A} e.
Arguments get {S E}.
Arguments put {S E} s.
Arguments emit {S E} e.
Arguments lift {S E A} o.

End Effects.
Import Effects.

Declare Scope py_scope.
Delimit Scope py_scope with py.
Notation "x <- c ;; k" := (bind c (fun x => k))
  (at level 100, c at next level, right associativity) : py_scope.
Notation "c ;;; k" := (bind c (fun _ => k))
  (at level 100, right associativity) : py_scope.
Local Open Scope py_scope.

(* ================================================================== *)
(** ** The Python runtime and the external collaborators *)
(* ================================================================== *)

(** Library functions the program calls and whose code is not the
    program's: a development is parametric in them. *)
Record PyRuntime : Type := {
  (** [json.dumps(v, indent=2)] *)
  json_dumps : json -> string;
  (** the JSON decoder behind [model_validate_json] and behind the request
      bodies of the HTTP surface; [None] on text that is not JSON *)
  json_loads : string -> option json;
  (** [repr(v)], what an f-string shows for a value that is not a [str] *)
  py_repr : json -> string;
  (** [str(e)] of the [ValidationError] pydantic raises for a model (by
      name) on an input text *)
  validation_error_str : string -> string -> string;
  (** the error list FastAPI reports for a request body that its model (by
      name) rejects *)
  request_validation_errors : string -> string -> json;
  (** for a request body that does not decode: whether it is reported as
      invalid JSON (the decoder raised a [JSONDecodeError], or there is no
      body at all), and not as a body that could not be parsed (any other
      exception, as on bytes that do not decode as text) *)
  body_is_text : string -> bool;
  (** whether a value renders as the JSON of a response: one that holds a
      float that is not finite ([NaN], [Infinity]) or a string that does
      not encode (a lone surrogate) does not *)
  renderable : json -> bool;
  (** the exception that rendering a value that does not render raises *)
  render_error : json -> exn
}.

(** [f"{v}"] *)
Definition py_str (rt : PyRuntime) (v : json) : string :=
  match v with
  | JStr s => s
  | _ => py_repr rt v
  end.

(** *** Generation Client ([google.genai]) *)

Record GenerateContentConfig : Type := {
  response_mime_type : string;
  response_schema : string;        (* the pydantic class, by name *)
  temperature : string             (* the float literal, as written *)
}.

Record GenerateContentRequest : Type := {
  model : string;
  contents : string;
  config : option GenerateContentConfig
}.

Record GenerateContentResponse : Type := { text : string }.

(** The hosted model is a black box: any function from requests to a
    response or an exception (network, credentials, quota). *)
Record Client : Type := {
  models_generate_content :
    GenerateContentRequest -> outcome GenerateContentResponse
}.

(** *** Retrieval Store ([qdrant_client], local mode) *)

Inductive Match : Type := MatchAny (any : list string).

Record FieldCondition : Type := { key : string; match_ : Match }.

Record Filter : Type := { must : list FieldCondition }.

Record Point : Type := { point_id : Z; payload : pydict }.

Module QueryResponse.
Record t : Type := {
  id : Z;
  metadata : pydict;
  score : Z
}.
End QueryResponse.

(** A store holds named collections of points and ranks with a relevance
    score of its own (dense similarity, fused with BM25 ranks when the
    sparse model is set).  The score of a point may depend on the query and
    on the candidates it competes with; only the order of scores matters,
    so they are integers here. *)
Record QdrantClient : Type := {
  collections : list (string * list Point);
  relevance : string -> list Point -> Point -> Z
}.

Fixpoint find_collection (cs : list (string * list Point)) (name : string)
  : option (list Point) :=
  match cs with
  | [] => None
  | (n, pts) :: rest => if String.eqb n name then Some pts else find_collection rest name
  end.

Definition field_matches (c : FieldCondition) (p : Point) : bool :=
  match dict_get (payload p) (key c), match_ c with
  | Some (JStr s), MatchAny any => mem_str s any
  | _, _ => false
  end.

Definition satisfies (f : Filter) (p : Point) : bool :=
  forallb (fun c => field_matches c p) (must f).

Section Ranking.
Variable A : Type.
Variable sc : A -> Z.

(** Insert before the first element that does not score higher. *)
Fixpoint insert_ranked (x : A) (l : list A) : list A :=
  match l with
  | [] => [x]
  | y :: rest =>
      if sc y <=? sc x then x :: y :: rest else y :: insert_ranked x rest
  end.

Definition rank (l : list A) : list A := fold_right insert_ranked [] l.
End Ranking.

(** Modelled from the spec: the Retrieval Store's
    [query(text, categoryFilter, limit) -> ranked list of stored records],
    which is [QdrantClient.query] of the qdrant_client package, not code of
    this repository: keep the points that pass the filter, order them
    best-first by the store's score, return the first [limit] of them with
    their payload as [metadata].  Querying a collection that does not exist
    raises. *)
Definition qdrant_query (db : QdrantClient) (collection : string)
    (query_text : string) (query_filter : Filter) (limit : nat)
  : outcome (list QueryResponse.t) :=
  match find_collection (collections db) collection with
  | None =>
      Raise (mkExn "ValueError" ("Collection " ++ collection ++ " not found"))
  | Some pts =>
      let candidates := filter (satisfies query_filter) pts in
      let sc := relevance db query_text candidates in
      Return (map (fun p => {| QueryResponse.id := point_id p;
                               QueryResponse.metadata := payload p;
                               QueryResponse.score := sc p |})
                  (firstn limit (rank sc candidates)))
  end.

(** *** Calls to collaborators, as recorded in a trace *)

Inductive call : Type :=
| GenerateContent (req : GenerateContentRequest)
| QdrantQuery (collection query_text : string) (query_filter : Filter) (limit : nat).

Definition is_generation (c : call) : bool :=
  match c with GenerateContent _ => true | QdrantQuery _ _ _ _ => false end.

(** How many generation requests a trace holds. *)
Definition generation_calls (t : list call) : nat :=
  length (filter is_generation t).

(* ================================================================== *)
(** ** 1. Pydantic models (structured outputs) *)
(* ================================================================== *)

Record DispatcherDecision : Type := {
  categories : list string;
  reasoning : string
}.

Record SpecialistDecision : Type := {
  selected_prompt_id : string;
  missing_variables : list string;
  clarifying_question : string
}.

(** Field validators for JSON input: a [str] field takes a JSON string, a
    [List[str]] field a JSON array of strings; nothing is coerced. *)
Definition as_str (v : json) : option string :=
  match v with JStr s => Some s | _ => None end.

Fixpoint all_str (l : list json) : option (list string) :=
  match l with
  | [] => Some []
  | v :: rest =>
      match as_str v, all_str rest with
      | Some s, Some ss => Some (s :: ss)
      | _, _ => None
      end
  end.

Definition as_list_str (v : json) : option (list string) :=
  match v with JArr l => all_str l | _ => None end.

Definition as_dict (v : json) : option pydict :=
  match v with JObj d => Some d | _ => None end.

(** A required field: present and accepted by its validator. Fields the
    model does not declare are ignored. *)
Definition field {A} (d : pydict) (name : string) (validate : json -> option A)
  : option A :=
  match dict_get d name with
  | Some v => validate v
  | None => None
  end.

Definition validate_DispatcherDecision (v : json) : option DispatcherDecision :=
  match v with
  | JObj d =>
      match field d "categories" as_list_str, field d "reasoning" as_str with
      | Some cs, Some r => Some {| categories := cs; reasoning := r |}
      | _, _ => None
      end
  | _ => None
  end.

Definition validate_SpecialistDecision (v : json) : option SpecialistDecision :=
  match v with
  | JObj d =>
      match field d "selected_prompt_id" as_str,
            field d "missing_variables" as_list_str,
            field d "clarifying_question" as_str with
      | Some sel, Some mv, Some q =>
          Some {| selected_prompt_id := sel;
                  missing_variables := mv;
                  clarifying_question := q |}
      | _, _, _ => None
      end
  | _ => None
  end.

Section Validation.
Variable rt : PyRuntime.

Definition ValidationError (cls input : string) : exn :=
  mkExn "ValidationError" (validation_error_str rt cls input).

(** [cls.model_validate_json(input)]: decode, then validate the shape. *)
Definition model_validate_json {A} (cls : string)
    (validate : json -> option A) (input : string) : outcome A :=
  match json_loads rt input with
  | None => Raise (ValidationError cls input)
  | Some v =>
      match validate v with
      | None => Raise (ValidationError cls input)
      | Some a => Return a
      end
  end.
End Validation.

(* ================================================================== *)
(** ** 2. The router engine *)
(* ================================================================== *)

(** The attributes [__init__] sets on [self]. *)
Record SalesPromptRouter : Type := {
  client : Client;
  base_dir : string;
  category_summary : json;
  prompts : list pydict;
  qdrant : QdrantClient;
  use_sparse : bool;
  collection_name : string
}.

(** A method runs on the router object and records its calls. *)
Definition Py : Type -> Type := M SalesPromptRouter call.

(** [d[k]] *)
Definition getitem (d : pydict) (k : string) : outcome json :=
  match dict_get d k with
  | Some v => Return v
  | None => Raise (KeyError k)
  end.

(** [[p[k] for p in ps]] *)
Fixpoint getitems (ps : list pydict) (k : string) : outcome (list json) :=
  match ps with
  | [] => Return []
  | p :: rest =>
      match getitem p k with
      | Raise e => Raise e
      | Return v =>
          match getitems rest k with
          | Raise e => Raise e
          | Return vs => Return (v :: vs)
          end
      end
  end.

(** [next((p for p in ps if p['id'] == wanted), None)]: the generator stops
    at the first match, and indexing a dict that has no ['id'] raises. *)
Fixpoint next_with_id (ps : list pydict) (wanted : string)
  : outcome (option pydict) :=
  match ps with
  | [] => Return None
  | p :: rest =>
      match getitem p "id" with
      | Raise e => Raise e
      | Return v =>
          if eq_str v wanted then Return (Some p) else next_with_id rest wanted
      end
  end.

(** One line of a triple-quoted prompt, at the indentation of the source. *)
Definition ln (s : string) : string := "        " ++ s ++ nl.

Definition gemini : string := "gemini-2.5-flash".

Definition structured (schema : string) : GenerateContentConfig :=
  {| response_mime_type := "application/json";
     response_schema := schema;
     temperature := "0.0" |}.

Section Router.
Variable rt : PyRuntime.

(** [c.models.generate_content(...)] *)
Definition generate_content (c : Client) (req : GenerateContentRequest)
  : Py GenerateContentResponse :=
  emit (GenerateContent req) ;;;
  lift (models_generate_content c req).

(** [db.query(collection_name=..., query_text=..., query_filter=..., limit=...)] *)
Definition store_query (db : QdrantClient) (collection : string)
    (query_text : string) (query_filter : Filter) (limit : nat)
  : Py (list QueryResponse.t) :=
  emit (QdrantQuery collection query_text query_filter limit) ;;;
  lift (qdrant_query db collection query_text query_filter limit).

(** *** Phase 1: the dispatcher *)

Definition phase_1_prompt (summary : json) : string :=
  nl ++ ln "You are the Routing Dispatcher for a Sales AI Agent."
     ++ ln "Review the user's intent and select the TOP 2 most relevant categories from the catalog."
     ++ ln EmptyString
     ++ ln "Catalog Data:"
     ++ ln (json_dumps rt summary)
     ++ "        ".

Definition phase_1_dispatcher (user_query : string) : Py DispatcherDecision :=
  self <- get ;;
  let system_prompt := phase_1_prompt (category_summary self) in
  response <- generate_content (client self)
    {| model := gemini;
       contents := system_prompt ++ nl ++ nl ++ "User Query:" ++ nl ++ user_query;
       config := Some (structured "DispatcherDecision") |} ;;
  decision <- lift (model_validate_json rt "DispatcherDecision"
                      validate_DispatcherDecision (text response)) ;;
  ret decision.

(** *** Phase 2: filter and search *)

Definition phase_2_search (user_query : string) (top_categories : list string)
  : Py (list pydict) :=
  self <- get ;;
  let category_filter :=
    {| must := [ {| key := "category"; match_ := MatchAny top_categories |} ] |} in
  results <- store_query (qdrant self) (collection_name self) user_query
               category_filter 3 ;;
  let top_3 := map QueryResponse.metadata results in
  match top_3 with
  | [] => ret []
  | _ :: _ =>
      (* the ids are computed for the line that is printed *)
      lift (getitems top_3 "id") ;;;
      ret top_3
  end.

(** *** Phase 3: the specialist *)

Definition phase_3_prompt (top_3_prompts : list pydict) (session_context : pydict)
  : string :=
  nl ++ ln "You are the Sales Implementation Specialist. You have 3 prompt options to fulfill the user's intent."
     ++ ln EmptyString
     ++ ln "User Context (Known Data):"
     ++ ln (json_dumps rt (JObj session_context))
     ++ ln EmptyString
     ++ ln "Available Prompts:"
     ++ ln (json_dumps rt (JArr (map JObj top_3_prompts)))
     ++ ln EmptyString
     ++ ln "Instructions:"
     ++ ln "1. Select the single 'id' of the prompt that best fulfills the user's needs."
     ++ ln ("2. IF AND ONLY IF all 3 prompts are completely irrelevant to the user's scenario, set 'selected_prompt_id' to "
            ++ dquote ++ "NONE" ++ dquote ++ ".")
     ++ ln "3. If a prompt is selected, compare its 'variables' against the 'User Context'. Identify completely missing variables."
     ++ ln "4. If variables are missing, write a natural conversational question to ask the user to provide them."
     ++ ln ("5. If " ++ dquote ++ "NONE" ++ dquote
            ++ " was selected, use 'clarifying_question' to inform the user that their request isn't specifically covered in the prompt library and ask them to clarify or pick a different topic.")
     ++ "        ".

Definition phase_3_specialist (user_query : string)
    (top_3_prompts : list pydict) (session_context : pydict)
  : Py SpecialistDecision :=
  self <- get ;;
  let system_prompt := phase_3_prompt top_3_prompts session_context in
  response <- generate_content (client self)
    {| model := gemini;
       contents := system_prompt ++ nl ++ nl ++ "User Query:" ++ nl ++ user_query;
       config := Some (structured "SpecialistDecision") |} ;;
  decision <- lift (model_validate_json rt "SpecialistDecision"
                      validate_SpecialistDecision (text response)) ;;
  if String.eqb (selected_prompt_id decision) "NONE" then
    ret decision
  else
    ret decision.

(** *** Phase 4: the generator *)

Definition not_found : string := "Error: Could not find prompt in database.".

Definition phase_4_prompt (target_prompt : pydict) (template : json)
    (session_context : pydict) : string :=
  let quoted s := dquote ++ s ++ dquote in
  let metadata_ :=
    match dict_get target_prompt "metadata" with
    | Some v => v
    | None => JNull
    end in
  nl ++ ln "You are a world-class B2B Enterprise Sales Copywriter with a 40% cold reply rate. "
     ++ ln "Your task is to take the provided template and fulfill it using the Known Context."
     ++ ln EmptyString
     ++ ln "CRITICAL RULES FOR YOUR WRITING:"
     ++ ln ("1. NO FLUFF: Be wildly concise. Cut out all "
            ++ quoted "I hope this finds you well" ++ " or "
            ++ quoted "I wanted to reach out" ++ " filler.")
     ++ ln ("2. HUMAN TONE: Write like a real executive talking to another executive. Confident, direct, and peer-to-peer. Zero "
            ++ quoted "marketing speak" ++ " or buzzword soup.")
     ++ ln ("3. NO META-TEXT: Return ONLY the final requested email or artifact. DO NOT say "
            ++ quoted "Here is the drafted content:" ++ " or "
            ++ quoted "Subject:" ++ ". Just give the raw text.")
     ++ ln "4. SMART INFERENCE: If the Known Context gives you a company or product, intelligently deduce what their typical pain points or value props might be to make the copy highly specific, not generic."
     ++ ln EmptyString
     ++ ln ("Template constraints: " ++ json_dumps rt metadata_)
     ++ ln ("Known Context: " ++ json_dumps rt (JObj session_context))
     ++ ln EmptyString
     ++ ln "Template to fulfill:"
     ++ ln (py_str rt template)
     ++ "        ".

Definition phase_4_generator (prompt_id : string) (session_context : pydict)
  : Py string :=
  self <- get ;;
  target_prompt <- lift (next_with_id (prompts self) prompt_id) ;;
  match target_prompt with
  | None => ret not_found
  | Some target_prompt =>
      if negb (dict_truthy target_prompt) then ret not_found
      else
        template <- lift (getitem target_prompt "template") ;;
        let system_prompt := phase_4_prompt target_prompt template session_context in
        response <- generate_content (client self)
          {| model := gemini; contents := system_prompt; config := None |} ;;
        ret (text response)
  end.
End Router.

(* ================================================================== *)
(** ** The HTTP surface ([src/api.py]) *)
(* ================================================================== *)

Module Phase1Request.
Record t : Type := { query : string }.

Definition validate (v : json) : option t :=
  match v with
  | JObj d =>
      match field d "query" as_str with
      | Some q => Some {| query := q |}
      | None => None
      end
  | _ => None
  end.
End Phase1Request.

Module Phase2Request.
Record t : Type := { query : string; categories : list string }.

Definition validate (v : json) : option t :=
  match v with
  | JObj d =>
      match field d "query" as_str, field d "categories" as_list_str with
      | Some q, Some cs => Some {| query := q; categories := cs |}
      | _, _ => None
      end
  | _ => None
  end.
End Phase2Request.

(** [List[Dict[str, Any]]] *)
Fixpoint all_dict (l : list json) : option (list pydict) :=
  match l with
  | [] => Some []
  | v :: rest =>
      match as_dict v, all_dict rest with
      | Some d, Some ds => Some (d :: ds)
      | _, _ => None
      end
  end.

Definition as_list_dict (v : json) : option (list pydict) :=
  match v with JArr l => all_dict l | _ => None end.

(** [Dict[str, str]] *)
Definition as_dict_str (v : json) : option pydict :=
  match v with
  | JObj d =>
      if forallb (fun kv => match snd kv with JStr _ => true | _ => false end) d
      then Some d else None
  | _ => None
  end.

Module Phase3Request.
Record t : Type := { query : string; top3 : list pydict; context : pydict }.

Definition validate (v : json) : option t :=
  match v with
  | JObj d =>
      match field d "query" as_str,
            field d "top3" as_list_dict,
            field d "context" as_dict_str with
      | Some q, Some ps, Some c => Some {| query := q; top3 := ps; context := c |}
      | _, _, _ => None
      end
  | _ => None
  end.
End Phase3Request.

Module Phase4Request.
Record t : Type := { promptId : string; context : pydict }.

Definition validate (v : json) : option t :=
  match v with
  | JObj d =>
      match field d "promptId" as_str, field d "context" as_dict_str with
      | Some i, Some c => Some {| promptId := i; context := c |}
      | _, _ => None
      end
  | _ => None
  end.
End Phase4Request.

(** How a path operation ends: it returns a value, which FastAPI sends as
    the JSON body of a 200, or it raises [HTTPException]. *)
Inductive endpoint_result : Type :=
| Respond (content : json)
| HTTPException (status_code : Z) (detail : string).

Record HTTPResponse : Type := { status : Z; body : json }.

Definition detail_body (detail : json) : json := JObj [("detail", detail)].

Section Api.
Variable rt : PyRuntime.

(** The [try: ... except Exception as e: raise HTTPException(500, str(e))]
    every path operation is wrapped in. *)
Definition guarded (c : Py json) : Py endpoint_result :=
  try_except (content <- c ;; ret (Respond content))
             (fun e => ret (HTTPException 500 (exn_str e))).

(** The body of the [try] of each path operation. *)

Definition try_phase_1 (req : Phase1Request.t) : Py json :=
  decision <- phase_1_dispatcher rt (Phase1Request.query req) ;;
  ret (JObj [("categories", JArr (map JStr (categories decision)));
             ("reasoning", JStr (reasoning decision))]).

Definition try_phase_2 (req : Phase2Request.t) : Py json :=
  top_prompts <- phase_2_search (Phase2Request.query req)
                   (Phase2Request.categories req) ;;
  ret (JArr (map JObj top_prompts)).

Definition try_phase_3 (req : Phase3Request.t) : Py json :=
  decision <- phase_3_specialist rt (Phase3Request.query req)
                (Phase3Request.top3 req) (Phase3Request.context req) ;;
  prompt <-
    (if negb (String.eqb (selected_prompt_id decision) "NONE")
     then lift (next_with_id (Phase3Request.top3 req) (selected_prompt_id decision))
     else ret None) ;;
  ret (JObj [("selected_prompt_id", JStr (selected_prompt_id decision));
             ("missing_variables", JArr (map JStr (missing_variables decision)));
             ("clarifying_question", JStr (clarifying_question decision));
             ("prompt", match prompt with Some p => JObj p | None => JNull end)]).

Definition try_phase_4 (req : Phase4Request.t) : Py json :=
  result <- phase_4_generator rt (Phase4Request.promptId req)
              (Phase4Request.context req) ;;
  ret (JObj [("output", JStr result)]).

Definition api_phase_1 (req : Phase1Request.t) : Py endpoint_result :=
  guarded (try_phase_1 req).

Definition api_phase_2 (req : Phase2Request.t) : Py endpoint_result :=
  guarded (try_phase_2 req).

Definition api_phase_3 (req : Phase3Request.t) : Py endpoint_result :=
  guarded (try_phase_3 req).

Definition api_phase_4 (req : Phase4Request.t) : Py endpoint_result :=
  guarded (try_phase_4 req).

(** Modelled from the spec: the HTTP server framework behind the Request
    Surface, an external collaborator (FastAPI) that is not code of this
    repository and that is not read off [src/api.py].  The specification
    gives the routes, one POST per phase with a JSON body; what is done
    around a path operation whose parameter is a pydantic model is the
    framework's.  It reads the body first: a body that does not decode is
    answered 422 when it is reported as invalid JSON, and 400 when it
    could not be parsed; a body that decodes and that the model rejects
    is answered 422; in none of these cases is the operation called.
    Otherwise the operation runs.  An [HTTPException] it raises becomes a
    response with that status and [{"detail": detail}].  The value it
    returns is rendered after the operation has ended, outside its [try]:
    it is the body of a 200, or, when it does not render, the rendering
    raises past the path operation. *)
Definition post {Req} (cls : string) (validate : json -> option Req)
    (operation : Req -> Py endpoint_result) (raw : string) : Py HTTPResponse :=
  let unprocessable :=
    {| status := 422;
       body := detail_body (request_validation_errors rt cls raw) |} in
  match json_loads rt raw with
  | None =>
      if body_is_text rt raw then ret unprocessable
      else ret {| status := 400;
                  body := detail_body (JStr "There was an error parsing the body") |}
  | Some v =>
      match validate v with
      | None => ret unprocessable
      | Some req =>
          r <- operation req ;;
          match r with
          | Respond content =>
              if renderable rt content
              then ret {| status := 200; body := content |}
              else raise (render_error rt content)
          | HTTPException code detail =>
              ret {| status := code; body := detail_body (JStr detail) |}
          end
      end
  end.

Inductive endpoint : Type := Phase1 | Phase2 | Phase3 | Phase4.

(** The four routes: [/api/phase1] ... [/api/phase4]. *)
Definition serve (ep : endpoint) (raw : string) : Py HTTPResponse :=
  match ep with
  | Phase1 => post "Phase1Request" Phase1Request.validate api_phase_1 raw
  | Phase2 => post "Phase2Request" Phase2Request.validate api_phase_2 raw
  | Phase3 => post "Phase3Request" Phase3Request.validate api_phase_3 raw
  | Phase4 => post "Phase4Request" Phase4Request.validate api_phase_4 raw
  end.
End Api.

(* ================================================================== *)
(** ** A reference runtime *)
(* ================================================================== *)

(** A runtime to run the model on: a JSON codec for ASCII text (integers
    but no floats, the two-character escapes but no [\u]) and stand-in
    texts for the validation messages.  It serves the concrete runs below;
    the general theorems hold for every runtime. *)
Module Codec.

Definition dq : ascii := ascii_of_nat 34.
Definition bs : ascii := ascii_of_nat 92.

Definition is_ws (c : ascii) : bool :=
  match nat_of_ascii c with
  | 32%nat | 9%nat | 10%nat | 13%nat => true
  | _ => false
  end.

Definition is_digit (c : ascii) : bool :=
  let n := nat_of_ascii c in ((48 <=? n) && (n <=? 57))%nat.

Fixpoint skip_ws (s : string) : string :=
  match s with
  | String c rest => if is_ws c then skip_ws rest else s
  | EmptyString => s
  end.

Definition unescape (c : ascii) : option ascii :=
  match c with
  | "n"%char => Some (ascii_of_nat 10)
  | "t"%char => Some (ascii_of_nat 9)
  | "r"%char => Some (ascii_of_nat 13)
  | "b"%char => Some (ascii_of_nat 8)
  | "f"%char => Some (ascii_of_nat 12)
  | "/"%char => Some c
  | _ => if Ascii.eqb c dq || Ascii.eqb c bs then Some c else None
  end.

(** The characters of a string literal, after its opening quote. *)
Fixpoint string_body (s : string) : option (string * string) :=
  match s with
  | EmptyString => None
  | String c rest =>
      if Ascii.eqb c dq then Some (EmptyString, rest)
      else if Ascii.eqb c bs then
        match rest with
        | String e rest' =>
            match unescape e, string_body rest' with
            | Some c', Some (body, tail) => Some (String c' body, tail)
            | _, _ => None
            end
        | EmptyString => None
        end
      else if (nat_of_ascii c <? 32)%nat then None
      else
        match string_body rest with
        | Some (body, tail) => Some (String c body, tail)
        | None => None
        end
  end.

Fixpoint digits (s : string) (acc : Z) : Z * string :=
  match s with
  | String c rest =>
      if is_digit c then digits rest (10 * acc + (Z.of_nat (nat_of_ascii c) - 48))
      else (acc, s)
  | EmptyString => (acc, s)
  end.

(** An integer, without leading zeros; a fraction or an exponent after it
    is not accepted. *)
Definition number (s : string) : option (Z * string) :=
  let '(neg, s') :=
    match s with
    | String "-"%char rest => (true, rest)
    | _ => (false, s)
    end in
  match s' with
  | String "0"%char (String c _) =>
      if is_digit c || Ascii.eqb c "."%char || Ascii.eqb c "e"%char || Ascii.eqb c "E"%char
      then None
      else Some (0, String.substring 1 (String.length s' - 1) s')
  | String c _ =>
      if is_digit c then
        let '(n, tail) := digits s' 0 in
        match tail with
        | String "."%char _ | String "e"%char _ | String "E"%char _ => None
        | _ => Some (if neg then - n else n, tail)
        end
      else None
  | EmptyString => None
  end.

Definition literal (word : string) (v : json) (s : string)
  : option (json * string) :=
  if String.prefix word s
  then Some (v, String.substring (String.length word)
                                 (String.length s - String.length word) s)
  else None.

Inductive mode : Type :=
| Value
| Items (acc : list json)
| Members (acc : pydict).

Fixpoint parse (fuel : nat) (m : mode) (s : string) : option (json * string) :=
  match fuel with
  | O => None
  | S fuel =>
      match m, skip_ws s with
      | Value, String "["%char rest =>
          match skip_ws rest with
          | String "]"%char tail => Some (JArr [], tail)
          | _ => parse fuel (Items []) rest
          end
      | Value, String "{"%char rest =>
          match skip_ws rest with
          | String "}"%char tail => Some (JObj [], tail)
          | _ => parse fuel (Members []) rest
          end
      | Value, String "n"%char _ => literal "null" JNull (skip_ws s)
      | Value, String "t"%char _ => literal "true" (JBool true) (skip_ws s)
      | Value, String "f"%char _ => literal "false" (JBool false) (skip_ws s)
      | Value, String c rest =>
          if Ascii.eqb c dq then
            match string_body rest with
            | Some (str, tail) => Some (JStr str, tail)
            | None => None
            end
          else
            match number (skip_ws s) with
            | Some (n, tail) => Some (JNum n, tail)
            | None => None
            end
      | Value, EmptyString => None
      | Items acc, _ =>
          match parse fuel Value s with
          | Some (v, tail) =>
              match skip_ws tail with
              | String ","%char tail' => parse fuel (Items (v :: acc)) tail'
              | String "]"%char tail' => Some (JArr (rev (v :: acc)), tail')
              | _ => None
              end
          | None => None
          end
      | Members acc, String c rest =>
          if Ascii.eqb c dq then
            match string_body rest with
            | Some (k, tail) =>
                match skip_ws tail with
                | String ":"%char tail' =>
                    match parse fuel Value tail' with
                    | Some (v, tail'') =>
                        match skip_ws tail'' with
                        | String ","%char r => parse fuel (Members (dict_set acc k v)) r
                        | String "}"%char r => Some (JObj (dict_set acc k v), r)
                        | _ => None
                        end
                    | None => None
                    end
                | _ => None
                end
            | None => None
            end
          else None
      | Members _, EmptyString => None
      end
  end.

Definition loads (s : string) : option json :=
  match parse (2 * String.length s + 2) Value s with
  | Some (v, tail) =>
      match skip_ws tail with
      | EmptyString => Some v
      | _ => None
      end
  | None => None
  end.
(** Encoding, as [json.dumps(v, indent=2)] lays it out. *)

Definition hex_digit (n : nat) : ascii :=
  ascii_of_nat (if (n <? 10)%nat then 48 + n else 87 + n).

Definition escape (c : ascii) : string :=
  let n := nat_of_ascii c in
  let esc x := String bs (String x EmptyString) in
  if Ascii.eqb c dq || Ascii.eqb c bs then esc c
  else match n with
       | 10%nat => esc "n"%char
       | 9%nat => esc "t"%char
       | 13%nat => esc "r"%char
       | 8%nat => esc "b"%char
       | 12%nat => esc "f"%char
       | _ =>
           if (n <? 32)%nat
           then String bs (String "u"%char (String "0"%char (String "0"%char
                  (String (hex_digit (n / 16)) (String (hex_digit (n mod 16)) EmptyString)))))
           else String c EmptyString
       end.

Fixpoint escaped (s : string) : string :=
  match s with
  | EmptyString => EmptyString
  | String c rest => escape c ++ escaped rest
  end.

Definition quoted (s : string) : string :=
  String dq (escaped s ++ String dq EmptyString).

Definition decimal (n : Z) : string := NilZero.string_of_int (Z.to_int n).

Fixpoint pad (level : nat) : string :=
  match level with
  | O => EmptyString
  | S l => "  " ++ pad l
  end.

Fixpoint dumps_at (level : nat) (v : json) : string :=
  match v with
  | JNull => "null"
  | JBool true => "true"
  | JBool false => "false"
  | JNum n => decimal n
  | JFloat lexeme => lexeme
  | JStr s => quoted s
  | JArr [] => "[]"
  | JArr items =>
      "[" ++ nl
      ++ (fix go (l : list json) : string :=
            match l with
            | [] => EmptyString
            | [x] => pad (S level) ++ dumps_at (S level) x
            | x :: rest => pad (S level) ++ dumps_at (S level) x ++ "," ++ nl ++ go rest
            end) items
      ++ nl ++ pad level ++ "]"
  | JObj [] => "{}"
  | JObj fields =>
      "{" ++ nl
      ++ (fix go (l : list (string * json)) : string :=
            match l with
            | [] => EmptyString
            | [(k, x)] => pad (S level) ++ quoted k ++ ": " ++ dumps_at (S level) x
            | (k, x) :: rest =>
                pad (S level) ++ quoted k ++ ": " ++ dumps_at (S level) x
                ++ "," ++ nl ++ go rest
            end) fields
      ++ nl ++ pad level ++ "}"
  end.

Definition dumps (v : json) : string := dumps_at 0 v.

(** [repr], for strings without quotes or escapes in them. *)
Fixpoint repr (v : json) : string :=
  match v with
  | JNull => "None"
  | JBool true => "True"
  | JBool false => "False"
  | JNum n => decimal n
  | JFloat lexeme => lexeme
  | JStr s => squote ++ s ++ squote
  | JArr items =>
      "["
      ++ (fix go (l : list json) : string :=
            match l with
            | [] => EmptyString
            | [x] => repr x
            | x :: rest => repr x ++ ", " ++ go rest
            end) items
      ++ "]"
  | JObj fields =>
      "{"
      ++ (fix go (l : list (string * json)) : string :=
            match l with
            | [] => EmptyString
            | [(k, x)] => squote ++ k ++ squote ++ ": " ++ repr x
            | (k, x) :: rest => squote ++ k ++ squote ++ ": " ++ repr x ++ ", " ++ go rest
            end) fields
      ++ "}"
  end.
End Codec.

(** A float that is finite, by its lexeme. *)
Definition finite (lexeme : string) : bool :=
  negb (mem_str lexeme ["NaN"; "Infinity"; "-Infinity"]).

(** A string, held as the bytes of its UTF-8 form, encodes when it has no
    surrogate: no byte 237 followed by a byte from 160 on. *)
Fixpoint encodes (s : string) : bool :=
  match s with
  | String c rest =>
      match rest with
      | String d _ =>
          negb ((nat_of_ascii c =? 237)%nat && (160 <=? nat_of_ascii d)%nat)
          && encodes rest
      | EmptyString => true
      end
  | EmptyString => true
  end.

Fixpoint renders (v : json) : bool :=
  match v with
  | JFloat lexeme => finite lexeme
  | JStr s => encodes s
  | JArr items =>
      (fix all (l : list json) : bool :=
         match l with
         | [] => true
         | x :: rest => renders x && all rest
         end) items
  | JObj fields =>
      (fix all (l : list (string * json)) : bool :=
         match l with
         | [] => true
         | (k, x) :: rest => encodes k && renders x && all rest
         end) fields
  | _ => true
  end.

Definition reference_runtime : PyRuntime := {|
  json_dumps := Codec.dumps;
  json_loads := Codec.loads;
  py_repr := Codec.repr;
  validation_error_str := fun cls _ => "1 validation error for " ++ cls;
  request_validation_errors := fun cls _ =>
    JArr [JObj [("type", JStr "model_attributes_type"); ("loc", JArr [JStr "body"])]];
  body_is_text := fun raw =>
    forallb (fun c => (nat_of_ascii c <? 128)%nat) (list_ascii_of_string raw);
  renderable := renders;
  render_error := fun _ =>
    mkExn "ValueError" "Out of range float values are not JSON compliant"
|}.

(* ================================================================== *)
(** ** A corpus to run on *)
(* ================================================================== *)

Module Scenario.

(** The template of the specification's end-to-end scenario. *)
Definition P1 : pydict :=
  [("id", JStr "P1");
   ("category", JStr "Prospecting");
   ("use_case", JStr "Cold outreach email");
   ("variables", JArr [JStr "prospect_name"; JStr "company"]);
   ("metadata", JObj [("S", JStr "First contact"); ("T", JStr "Write an opener")]);
   ("template", JStr "Hi {{prospect_name}} at {{company}}...")].

Definition P2 : pydict :=
  [("id", JStr "P2");
   ("category", JStr "Objection Handling");
   ("use_case", JStr "Price pushback");
   ("variables", JArr [JStr "prospect_name"]);
   ("metadata", JObj [("S", JStr "Price objection"); ("T", JStr "Reframe value")]);
   ("template", JStr "{{prospect_name}}, on price: ...")].

Definition summary : json :=
  JObj [("Level 1: Prospecting & Initial Outreach",
         JObj [("categories", JArr [JStr "Prospecting"]);
               ("summary", JStr "Use these when initiating first contact.");
               ("example_use_cases", JArr [JStr "Cold outreach email"])]);
        ("Level 2: Sales Prep & Qualification",
         JObj [("categories", JArr [JStr "Objection Handling"]);
               ("summary", JStr "Use these when preparing for an upcoming call.");
               ("example_use_cases", JArr [JStr "Price pushback"])])].

(** A client that answers every request with the same text. *)
Definition answering (answer : string) : Client :=
  {| models_generate_content := fun _ => Return {| text := answer |} |}.

(** A store that prefers the points with the larger id. *)
Definition store : QdrantClient :=
  {| collections :=
       [("prompts", [ {| point_id := 0; payload := P1 |};
                      {| point_id := 1; payload := P2 |} ])];
     relevance := fun _ _ p => point_id p |}.

Definition router (c : Client) : SalesPromptRouter :=
  {| client := c;
     base_dir := "/srv/moltsales";
     category_summary := summary;
     prompts := [P1; P2];
     qdrant := store;
     use_sparse := true;
     collection_name := "prompts" |}.

(** The text of a specialist's answer. *)
Definition specialist_says (sel : string) (missing : list string) (question : string)
  : string :=
  Codec.dumps (JObj [("selected_prompt_id", JStr sel);
                     ("missing_variables", JArr (map JStr missing));
                     ("clarifying_question", JStr question)]).

Definition dispatcher_says (cats : list string) (why : string) : string :=
  Codec.dumps (JObj [("categories", JArr (map JStr cats));
                     ("reasoning", JStr why)]).

Definition sarah : pydict := [("prospect_name", JStr "Sarah")].

Definition ask : string := "I need an opener for a prospect.".

(** The body of a request to [/api/phase3]. *)
Definition phase3_body : string :=
  Codec.dumps (JObj [("query", JStr ask);
                     ("top3", JArr [JObj P1; JObj P2]);
                     ("context", JObj sarah)]).

End Scenario.

(* ================================================================== *)
(** ** Vocabulary of the properties *)
(* ================================================================== *)

(** The one request phase 1 sends. *)
Definition dispatcher_request (rt : PyRuntime) (summary : json) (user_query : string)
  : GenerateContentRequest :=
  {| model := gemini;
     contents := phase_1_prompt rt summary ++ nl ++ nl ++ "User Query:" ++ nl ++ user_query;
     config := Some (structured "DispatcherDecision") |}.

(** The one request phase 3 sends. *)
Definition specialist_request (rt : PyRuntime) (user_query : string)
    (top_3_prompts : list pydict) (session_context : pydict)
  : GenerateContentRequest :=
  {| model := gemini;
     contents := phase_3_prompt rt top_3_prompts session_context
                 ++ nl ++ nl ++ "User Query:" ++ nl ++ user_query;
     config := Some (structured "SpecialistDecision") |}.

(** The structured answer of the client to a request: its text, decoded
    and validated against a schema. *)
Definition structured_answer (rt : PyRuntime) {A} (c : Client) (req : GenerateContentRequest)
    (cls : string) (validate : json -> option A) : outcome A :=
  match models_generate_content c req with
  | Return response => model_validate_json rt cls validate (text response)
  | Raise e => Raise e
  end.

(** The variables a template declares, its [variables] list. *)
Definition template_variables (p : pydict) : list string :=
  match dict_get p "variables" with
  | Some (JArr l) =>
      match all_str l with
      | Some vs => vs
      | None => []
      end
  | _ => []
  end.

(** Following the specification's words: the template's [variables] minus
    the keys present in the context, by exact match on the names. *)
Definition variables_not_in_context (p : pydict) (session_context : pydict)
  : list string :=
  filter (fun v => negb (mem_str v (dict_keys session_context)))
         (template_variables p).

Definition same_set (l1 l2 : list string) : Prop :=
  forall x, In x l1 <-> In x l2.

(** The specification's property: a decision that selects a candidate
    reports, as a set, that candidate's variables minus the context keys. *)
Definition missing_variables_is_difference : Prop :=
  forall rt self user_query top_3_prompts session_context t d self' t' p,
    phase_3_specialist rt user_query top_3_prompts session_context self t
      = (Return d, self', t') ->
    selected_prompt_id d <> "NONE" ->
    In p top_3_prompts ->
    dict_get p "id" = Some (JStr (selected_prompt_id d)) ->
    same_set (missing_variables d) (variables_not_in_context p session_context).

(** The specification's property: the question is empty exactly when
    nothing is missing and a candidate was selected. *)
Definition clarifying_question_empty_iff : Prop :=
  forall rt self user_query top_3_prompts session_context t d self' t',
    phase_3_specialist rt user_query top_3_prompts session_context self t
      = (Return d, self', t') ->
    (clarifying_question d = EmptyString
     <-> (missing_variables d = [] /\ selected_prompt_id d <> "NONE")).

(** The specification's property: the selection is the sentinel or the id
    of a candidate. *)
Definition selection_is_sentinel_or_candidate : Prop :=
  forall rt self user_query top_3_prompts session_context t d self' t',
    phase_3_specialist rt user_query top_3_prompts session_context self t
      = (Return d, self', t') ->
    selected_prompt_id d = "NONE"
    \/ exists p, In p top_3_prompts
                 /\ dict_get p "id" = Some (JStr (selected_prompt_id d)).

(** The specification's property: with no candidates the phase fails with
    [InvalidCallerState] and the client is not called. *)
Definition empty_candidates_rejected : Prop :=
  forall rt self user_query session_context t,
  exists e self' t',
    phase_3_specialist rt user_query [] session_context self t = (Raise e, self', t')
    /\ exn_class e = "InvalidCallerState"
    /\ generation_calls t' = generation_calls t.

Definition strings_of (l : list json) : list string :=
  flat_map (fun v => match v with JStr s => [s] | _ => [] end) l.

(** The known taxonomy: the categories of every level of the loaded
    category summary, a dict from level to
    [{categories, summary, example_use_cases}]. *)
Definition taxonomy (summary : json) : list string :=
  match summary with
  | JObj levels =>
      flat_map (fun level =>
                  match snd level with
                  | JObj d =>
                      match dict_get d "categories" with
                      | Some (JArr l) => strings_of l
                      | _ => []
                      end
                  | _ => []
                  end) levels
  | _ => []
  end.

(** The specification's property: two categories, both of the taxonomy. *)
Definition dispatcher_picks_two_known : Prop :=
  forall rt self user_query t d self' t',
    phase_1_dispatcher rt user_query self t = (Return d, self', t') ->
    length (categories d) = 2%nat
    /\ Forall (fun c => In c (taxonomy (category_summary self))) (categories d).

(** A template whose id is some value other than [prompt_id]. *)
Definition other_id (prompt_id : string) (p : pydict) : Prop :=
  exists v, dict_get p "id" = Some v /\ eq_str v prompt_id = false.


(** [a] is ranked no worse than [b]. *)
Definition no_worse {A} (sc : A -> Z) (a b : A) : Prop := sc b <= sc a.

(** The category of a stored template is one of [cats]. *)
Definition category_in (cats : list string) (p : pydict) : Prop :=
  exists c, dict_get p "category" = Some (JStr c) /\ In c cats.

Definition by_category (cats : list string) : Filter :=
  {| must := [ {| key := "category"; match_ := MatchAny cats |} ] |}.

(** The hits of a query on the points [pts] of the collection: the payloads
    of the first three of the points that pass the filter, best first. *)
Definition retrieved (db : QdrantClient) (user_query : string)
    (top_categories : list string) (pts : list Point) : list pydict :=
  let candidates := filter (satisfies (by_category top_categories)) pts in
  map payload (firstn 3 (rank (relevance db user_query candidates) candidates)).

(** The [try] block a request body leads to, when the body decodes and the
    endpoint's request model accepts it. *)
Definition accepted (rt : PyRuntime) (ep : endpoint) (raw : string) : option (Py json) :=
  match json_loads rt raw with
  | None => None
  | Some v =>
      match ep with
      | Phase1 => option_map (try_phase_1 rt) (Phase1Request.validate v)
      | Phase2 => option_map try_phase_2 (Phase2Request.validate v)
      | Phase3 => option_map (try_phase_3 rt) (Phase3Request.validate v)
      | Phase4 => option_map (try_phase_4 rt) (Phase4Request.validate v)
      end
  end.

Definition model_of (ep : endpoint) : string :=
  match ep with
  | Phase1 => "Phase1Request"
  | Phase2 => "Phase2Request"
  | Phase3 => "Phase3Request"
  | Phase4 => "Phase4Request"
  end.

(** The answer to a call whose [try] block is [c]. *)
Definition answer_of (rt : PyRuntime) (c : Py json) (self : SalesPromptRouter)
    (t : list call) : outcome HTTPResponse * SalesPromptRouter * list call :=
  match c self t with
  | (Return content, self', t') =>
      if renderable rt content
      then (Return {| status := 200; body := content |}, self', t')
      else (Raise (render_error rt content), self', t')
  | (Raise e, self', t') =>
      (Return {| status := 500; body := detail_body (JStr (exn_str e)) |}, self', t')
  end.

(** The specification's property: a call is answered 200 or it fails, and
    every failing call, one whose input fails validation too, is answered
    500 with the error message in the body; never a 4xx. *)
Definition failures_are_500 : Prop :=
  forall rt ep raw self t response self' t',
    serve rt ep raw self t = (Return response, self', t') ->
    status response = 200
    \/ (status response = 500
        /\ exists message, body response = detail_body (JStr message)).

(** [p] has the id [wanted]. *)
Definition has_id (wanted : string) (p : pydict) : bool :=
  match dict_get p "id" with
  | Some v => eq_str v wanted
  | None => false
  end.

(** What the [prompt] field is to hold: null on the sentinel and when no
    element of [top3] has the selected id, else the first element that has
    it. *)
Definition prompt_field (top3 : list pydict) (selected : string) : json :=
  if String.eqb selected "NONE" then JNull
  else match find (has_id selected) top3 with
       | Some p => JObj p
       | None => JNull
       end.



(** Following the property's words: the category of a template, a string,
    is one of those asked for. *)
Definition in_requested (cats : list string) (p : pydict) : bool :=
  match dict_get p "category" with
  | Some (JStr c) => if in_dec string_dec c cats then true else false
  | _ => false
  end.

(** No template of [ps] has the id [wanted]. *)
Definition no_template_with_id (wanted : string) (ps : list pydict) : Prop :=
  Forall (fun p => has_id wanted p = false) ps.

(** A template of [ps] has no ['id']. *)
Definition some_without_id (ps : list pydict) : Prop :=
  Exists (fun p => dict_get p "id" = None) ps.

(** A call of one of the four phase methods, with its arguments. *)
Inductive phase_call : Type :=
| Dispatch (user_query : string)
| Search (user_query : string) (top_categories : list string)
| Specialize (user_query : string) (top_3_prompts : list pydict) (session_context : pydict)
| Generate (prompt_id : string) (session_context : pydict).

Inductive phase_result : Type :=
| Dispatched (d : DispatcherDecision)
| Retrieved (top_3 : list pydict)
| Specialized (d : SpecialistDecision)
| Generated (output : string).

Definition invoke (rt : PyRuntime) (c : phase_call) : Py phase_result :=
  match c with
  | Dispatch q => d <- phase_1_dispatcher rt q ;; ret (Dispatched d)
  | Search q cats => l <- phase_2_search q cats ;; ret (Retrieved l)
  | Specialize q ps ctx => d <- phase_3_specialist rt q ps ctx ;; ret (Specialized d)
  | Generate i ctx => s <- phase_4_generator rt i ctx ;; ret (Generated s)
  end.

(** Calls one after the other on the same router, as a server makes them:
    a call that raises does not stop the ones after it. *)
Fixpoint invoke_all (rt : PyRuntime) (cs : list phase_call) : Py unit :=
  match cs with
  | [] => ret tt
  | c :: rest =>
      try_except (invoke rt c ;;; ret tt) (fun _ => ret tt) ;;;
      invoke_all rt rest
  end.

(** A computation that leaves the router alone, and whose outcome and
    calls do not depend on the calls made before it. *)
Definition framed {A} (c : Py A) (self : SalesPromptRouter) : Prop :=
  exists result calls, forall t, c self t = (result, self, (t ++ calls)%list).

(* ================================================================== *)
(** ** The rest of the router: building the index *)
(* ================================================================== *)

(** [d.get(k, default)] *)
Definition dict_get_or (d : pydict) (k : string) (default : json) : json :=
  match dict_get d k with
  | Some v => v
  | None => default
  end.

(** [os.path.join(a, b)] *)
Definition path_join (a b : string) : string :=
  match b with
  | String "/"%char _ => b
  | _ =>
      match a with
      | EmptyString => b
      | _ =>
          if String.eqb (String.substring (String.length a - 1) 1 a) "/"
          then a ++ b
          else a ++ "/" ++ b
      end
  end.

(** What the program uses of the local mode of [qdrant_client] besides
    [query], and cannot be read off the program: the store kept under a
    path, which may fail to open, and the two calls that set the embedding
    models, either of which may fail (the model is fetched on first use). *)
Record QdrantLocal : Type := {
  (** [QdrantClient(path=p)] *)
  open_path : string -> outcome QdrantClient;
  (** [db.set_model(name)] *)
  set_model : QdrantClient -> string -> outcome QdrantClient;
  (** [db.set_sparse_model(name)] *)
  set_sparse_model : QdrantClient -> string -> outcome QdrantClient
}.

(** [db.collection_exists(name)] *)
Definition collection_exists (db : QdrantClient) (name : string) : bool :=
  match find_collection (collections db) name with
  | Some _ => true
  | None => false
  end.

Fixpoint set_collection (cs : list (string * list Point)) (name : string)
    (pts : list Point) : list (string * list Point) :=
  match cs with
  | [] => [(name, pts)]
  | (n, old) :: rest =>
      if String.eqb n name then (n, pts) :: rest
      else (n, old) :: set_collection rest name pts
  end.

(** A point takes the place of the one with its id, or is added. *)
Fixpoint upsert (pts : list Point) (p : Point) : list Point :=
  match pts with
  | [] => [p]
  | q :: rest =>
      if point_id q =? point_id p then p :: rest else q :: upsert rest p
  end.

(** [{"document": doc, **meta}]: the key ["document"] comes first, with the
    value [meta] has for it if it has one, and the other keys of [meta]
    follow. *)
Definition document_payload (doc : string) (meta : pydict) : pydict :=
  ("document", dict_get_or meta "document" (JStr doc))
  :: filter (fun kv => negb (String.eqb (fst kv) "document")) meta.

(** [zip(ids, metadata, documents)], as points. *)
Fixpoint zip_points (ids : list Z) (metadata_list : list pydict)
    (documents : list string) : list Point :=
  match ids, metadata_list, documents with
  | i :: ids', m :: metadata', d :: documents' =>
      {| point_id := i; payload := document_payload d m |}
      :: zip_points ids' metadata' documents'
  | _, _, _ => []
  end.

(** Modelled from the spec: the Retrieval Store's [buildOnce(corpus)],
    which is [QdrantClient.add] of the qdrant_client package, not code of
    this repository: the collection is created when it is not there, and
    each document is stored as a point under its id, its payload being the
    metadata given with it together with the document text under
    ["document"]. *)
Definition qdrant_add (db : QdrantClient) (collection : string)
    (documents : list string) (metadata_list : list pydict) (ids : list Z)
  : QdrantClient :=
  let old :=
    match find_collection (collections db) collection with
    | Some pts => pts
    | None => []
    end in
  {| collections :=
       set_collection (collections db) collection
         (fold_left upsert (zip_points ids metadata_list documents) old);
     relevance := relevance db |}.

(** [type(v).__name__] *)
Definition type_name (v : json) : string :=
  match v with
  | JNull => "NoneType"
  | JBool _ => "bool"
  | JNum _ => "int"
  | JFloat _ => "float"
  | JStr _ => "str"
  | JArr _ => "list"
  | JObj _ => "dict"
  end.

Definition AttributeError (v : json) (attribute : string) : exn :=
  mkExn "AttributeError"
        (squote ++ type_name v ++ squote ++ " object has no attribute "
         ++ squote ++ attribute ++ squote).

(** [v.get(k, default)] on a value that may be no dict. *)
Definition value_get (v : json) (k : string) (default : json) : outcome json :=
  match v with
  | JObj d => Return (dict_get_or d k default)
  | _ => Raise (AttributeError v "get")
  end.

(** Assignments to the attributes of [self] that [init_vector_db] sets. *)
Definition with_qdrant (self : SalesPromptRouter) (db : QdrantClient)
  : SalesPromptRouter :=
  {| client := client self; base_dir := base_dir self;
     category_summary := category_summary self; prompts := prompts self;
     qdrant := db; use_sparse := use_sparse self;
     collection_name := collection_name self |}.

Definition with_use_sparse (self : SalesPromptRouter) (b : bool)
  : SalesPromptRouter :=
  {| client := client self; base_dir := base_dir self;
     category_summary := category_summary self; prompts := prompts self;
     qdrant := qdrant self; use_sparse := b;
     collection_name := collection_name self |}.

Definition with_collection_name (self : SalesPromptRouter) (name : string)
  : SalesPromptRouter :=
  {| client := client self; base_dir := base_dir self;
     category_summary := category_summary self; prompts := prompts self;
     qdrant := qdrant self; use_sparse := use_sparse self;
     collection_name := name |}.

(** [self.attribute = value] *)
Definition assign (update : SalesPromptRouter -> SalesPromptRouter) : Py unit :=
  self <- get ;;
  put (update self).

Section VectorDb.
Variable rt : PyRuntime.
Variable lib : QdrantLocal.

(** The text that is embedded for a prompt: category, situation and task. *)
Definition doc_text (prompt : pydict) : outcome string :=
  let category := dict_get_or prompt "category" JNull in
  match getitem prompt "metadata" with
  | Raise e => Raise e
  | Return m =>
      match value_get m "S" (JStr EmptyString) with
      | Raise e => Raise e
      | Return situation =>
          match value_get m "T" (JStr EmptyString) with
          | Raise e => Raise e
          | Return task =>
              Return ("Category: " ++ py_str rt category
                      ++ " - Situation: " ++ py_str rt situation
                      ++ " - Task: " ++ py_str rt task)
          end
      end
  end.

(** The loop [for idx, prompt in enumerate(self.prompts)], from [idx] on,
    appending to the three lists. *)
Fixpoint index_prompts (idx : Z) (ps : list pydict)
    (documents : list string) (metadata_list : list pydict) (ids : list Z)
  : outcome (list string * list pydict * list Z) :=
  match ps with
  | [] => Return (documents, metadata_list, ids)
  | prompt :: rest =>
      match doc_text prompt with
      | Raise e => Raise e
      | Return text_ =>
          index_prompts (idx + 1) rest
            (documents ++ [text_])%list
            (metadata_list ++ [prompt])%list
            (ids ++ [idx])%list
      end
  end.

Definition init_vector_db : Py unit :=
  self <- get ;;
  let db_path := path_join (base_dir self) "local_qdrant" in
  opened <- lift (open_path lib db_path) ;;
  assign (fun self => with_qdrant self opened) ;;;
  self <- get ;;
  db <- lift (set_model lib (qdrant self) "BAAI/bge-small-en-v1.5") ;;
  assign (fun self => with_qdrant self db) ;;;
  assign (fun self => with_use_sparse self false) ;;;
  try_except
    (self <- get ;;
     db <- lift (set_sparse_model lib (qdrant self) "Qdrant/bm25") ;;
     assign (fun self => with_qdrant self db) ;;;
     assign (fun self => with_use_sparse self true))
    (fun _ => ret tt) ;;;
  assign (fun self => with_collection_name self "prompts") ;;;
  self <- get ;;
  if negb (collection_exists (qdrant self) (collection_name self)) then
    built <- lift (index_prompts 0 (prompts self) [] [] []) ;;
    let '(documents, metadata_list, ids) := built in
    assign (fun self =>
              with_qdrant self
                (qdrant_add (qdrant self) (collection_name self)
                            documents metadata_list ids))
  else
    ret tt.

(** The store under [path] once it is opened and the two models have been
    set, with the flag that tells whether the sparse one could be; [None]
    when opening it or setting the dense model failed. *)
Definition configured (path : string) : option (QdrantClient * bool) :=
  match open_path lib path with
  | Raise _ => None
  | Return opened =>
      match set_model lib opened "BAAI/bge-small-en-v1.5" with
      | Raise _ => None
      | Return dense =>
          match set_sparse_model lib dense "Qdrant/bm25" with
          | Return both => Some (both, true)
          | Raise _ => Some (dense, false)
          end
      end
  end.
End VectorDb.

(* ================================================================== *)
(** ** The rest of the router: the run from the command line *)
(* ================================================================== *)

Definition mock_context : pydict :=
  [("prospect", JObj [("name", JStr "Sarah");
                      ("role", JStr "CTO");
                      ("company", JStr "Stripe")])].

Definition test_query : string :=
  "I need an email for a prospect who has been ignoring my demo request because they think the price is too high.".

(** How a run ends: with the artifact it prints, with the notice that no
    prompt was retrieved, or with the notice of the error it caught. *)
Inductive run_end : Type :=
| FinalArtifact (final_artifact : string)
| PipelineStopped
| ErrorEncountered (e : exn).

(** The interaction loop: the user's answer is stored under
    ["user_provided"] and under every missing key. *)
Definition fill_slots (context : pydict) (missing_keys : list string)
    (user_response : string) : pydict :=
  fold_left (fun c k => dict_set c k (JStr user_response)) missing_keys
            (dict_set context "user_provided" (JStr user_response)).

(** The body of [if __name__ == "__main__"], once the router is
    constructed; [user_input] is what [input] gives when it is called. *)
Definition main (rt : PyRuntime) (user_input : outcome string) : Py run_end :=
  try_except
    (top_cats <- phase_1_dispatcher rt test_query ;;
     top_prompts <- phase_2_search test_query (categories top_cats) ;;
     match top_prompts with
     | _ :: _ =>
         final_decision <- phase_3_specialist rt test_query top_prompts mock_context ;;
         context <-
           match missing_variables final_decision with
           | [] => ret mock_context
           | missing_keys =>
               user_response <- lift user_input ;;
               ret (fill_slots mock_context missing_keys user_response)
           end ;;
         final_artifact <- phase_4_generator rt (selected_prompt_id final_decision) context ;;
         ret (FinalArtifact final_artifact)
     | [] => ret PipelineStopped
     end)
    (fun e => ret (ErrorEncountered e)).

(* ================================================================== *)
(** ** More vocabulary *)
(* ================================================================== *)

(** The one request phase 4 sends, for the template it found. *)
Definition generator_request (rt : PyRuntime) (target_prompt : pydict)
    (template : json) (session_context : pydict) : GenerateContentRequest :=
  {| model := gemini;
     contents := phase_4_prompt rt target_prompt template session_context;
     config := None |}.

(** What the client gives for a free-text request: the text, or what it
    raised. *)
Definition text_answer (c : Client) (req : GenerateContentRequest) : outcome string :=
  match models_generate_content c req with
  | Return response => Return (text response)
  | Raise e => Raise e
  end.

(** Every template of a corpus has an ['id']. *)
Definition all_have_id (ps : list pydict) : Prop :=
  Forall (fun p => dict_get p "id" <> None) ps.

(** The metadata of a prompt is there and is a dict. *)
Definition has_metadata (p : pydict) : Prop :=
  exists m, dict_get p "metadata" = Some (JObj m).

(** The ids [enumerate] gives to [n] prompts. *)
Definition enumerated (n : nat) : list Z := map Z.of_nat (seq 0 n).

(** A stored point holds a prompt: every field of the prompt, and the
    document text besides. *)
Definition holds_prompt (pt : Point) (prompt : pydict) : Prop :=
  forall k, k <> "document" -> dict_get (payload pt) k = dict_get prompt k.

(** A computation that leaves the router alone and calls a collaborator
    once at most, whatever was called before. *)
Definition framed_once {A} (c : Py A) (self : SalesPromptRouter) : Prop :=
  exists result calls,
    (length calls <= 1)%nat
    /\ forall t, c self t = (result, self, (t ++ calls)%list).

(** A value of a context that is not a string. *)
Definition not_a_string (kv : string * json) : Prop :=
  forall s, snd kv <> JStr s.

(** The index of a router is the one built from its corpus: its
    collection holds one point per prompt, in the order of the corpus. *)
Definition index_of_corpus (self : SalesPromptRouter) : Prop :=
  exists pts,
    find_collection (collections (qdrant self)) (collection_name self) = Some pts
    /\ map point_id pts = enumerated (length (prompts self))
    /\ Forall2 holds_prompt pts (prompts self).

(** More to run on. *)
Module Fixtures.

(** A template still in draft: it has no text and no metadata. *)
Definition P7 : pydict := [("id", JStr "P7"); ("category", JStr "Closing")].

(** A router whose corpus holds the draft. *)
Definition draft_router (c : Client) : SalesPromptRouter :=
  {| client := c;
     base_dir := "/srv/moltsales";
     category_summary := Scenario.summary;
     prompts := [Scenario.P1; P7];
     qdrant := Scenario.store;
     use_sparse := false;
     collection_name := "prompts" |}.

(** A local store with [on_disk] as its collections, whose dense model
    is at hand and whose sparse model is or is not. *)
Definition local_store (on_disk : list (string * list Point)) (sparse_at_hand : bool)
  : QdrantLocal :=
  {| open_path := fun _ =>
       Return {| collections := on_disk; relevance := fun _ _ p => point_id p |};
     set_model := fun db _ => Return db;
     set_sparse_model := fun db _ =>
       if sparse_at_hand then Return db
       else Raise (mkExn "ValueError" "Unsupported embedding model: Qdrant/bm25") |}.

(** A router before [init_vector_db]: the store attributes are still to be
    set. *)
Definition loaded_router (corpus : list pydict) : SalesPromptRouter :=
  {| client := Scenario.answering "unused";
     base_dir := "/srv/moltsales";
     category_summary := Scenario.summary;
     prompts := corpus;
     qdrant := {| collections := []; relevance := fun _ _ _ => 0 |};
     use_sparse := false;
     collection_name := EmptyString |}.

(** A client that answers a structured request by its schema: the
    dispatcher names the two categories of the corpus, the specialist
    selects nothing. *)
Definition by_schema : Client :=
  {| models_generate_content := fun req =>
       match config req with
       | Some cfg =>
           if String.eqb (response_schema cfg) "DispatcherDecision"
           then Return {| text := Scenario.dispatcher_says
                                    ["Prospecting"; "Objection Handling"]
                                    "price pushback" |}
           else Return {| text := Scenario.specialist_says "NONE" []
                                    "Nothing fits; what do you need?" |}
       | None => Return {| text := "Dear Sarah, ..." |}
       end |}.

Definition undecided_router : SalesPromptRouter := Scenario.router by_schema.

End Fixtures.

(* ================================================================== *)
(** ** What a phase does, as one equation each *)
(* ================================================================== *)

Section Runs.
Variable rt : PyRuntime.

Lemma phase_1_dispatcher_run user_query self t :
  phase_1_dispatcher rt user_query self t =
  (structured_answer rt (client self)
     (dispatcher_request rt (category_summary self) user_query)
     "DispatcherDecision" validate_DispatcherDecision,
   self,
   (t ++ [GenerateContent (dispatcher_request rt (category_summary self) user_query)])%list).
Proof.
  unfold phase_1_dispatcher, structured_answer, generate_content, dispatcher_request,
    bind, get, emit, lift, ret.
  destruct (models_generate_content (client self) _) as [response | e]; [ | reflexivity].
  destruct (model_validate_json rt _ _ (text response)); reflexivity.
Qed.

Lemma phase_3_specialist_run user_query top_3_prompts session_context self t :
  phase_3_specialist rt user_query top_3_prompts session_context self t =
  (structured_answer rt (client self)
     (specialist_request rt user_query top_3_prompts session_context)
     "SpecialistDecision" validate_SpecialistDecision,
   self,
   (t ++ [GenerateContent (specialist_request rt user_query top_3_prompts session_context)])%list).
Proof.
  unfold phase_3_specialist, structured_answer, generate_content, specialist_request,
    bind, get, emit, lift, ret.
  destruct (models_generate_content (client self) _) as [response | e]; [ | reflexivity].
  destruct (model_validate_json rt _ _ (text response)) as [d | e]; [ | reflexivity].
  destruct (String.eqb (selected_prompt_id d) "NONE"); reflexivity.
Qed.

End Runs.

(** *** What validation tells about the validated text *)

Lemma as_str_inv v s : as_str v = Some s -> v = JStr s.
Proof. destruct v; simpl; congruence. Qed.

Lemma all_str_inv l : forall ss, all_str l = Some ss -> l = map JStr ss.
Proof.
  induction l as [ | v rest IH]; simpl; intros ss H.
  - injection H as <-. reflexivity.
  - destruct (as_str v) as [s | ] eqn:Hv; [ | discriminate].
    destruct (all_str rest) as [ss' | ]; [ | discriminate].
    injection H as <-. simpl.
    rewrite (as_str_inv _ Hv), (IH ss' eq_refl). reflexivity.
Qed.

Lemma as_list_str_inv v ss : as_list_str v = Some ss -> v = JArr (map JStr ss).
Proof.
  destruct v; simpl; try discriminate.
  intros H. rewrite (all_str_inv _ H). reflexivity.
Qed.

Lemma field_str_inv d name s :
  field d name as_str = Some s -> dict_get d name = Some (JStr s).
Proof.
  unfold field. destruct (dict_get d name) as [v | ]; [ | discriminate].
  intros H. rewrite (as_str_inv _ H). reflexivity.
Qed.

Lemma field_list_str_inv d name ss :
  field d name as_list_str = Some ss -> dict_get d name = Some (JArr (map JStr ss)).
Proof.
  unfold field. destruct (dict_get d name) as [v | ]; [ | discriminate].
  intros H. rewrite (as_list_str_inv _ H). reflexivity.
Qed.

(** A decision that validates was read off the fields of a JSON object. *)
Lemma validate_SpecialistDecision_fields v d :
  validate_SpecialistDecision v = Some d ->
  exists fields,
    v = JObj fields
    /\ dict_get fields "selected_prompt_id" = Some (JStr (selected_prompt_id d))
    /\ dict_get fields "missing_variables" = Some (JArr (map JStr (missing_variables d)))
    /\ dict_get fields "clarifying_question" = Some (JStr (clarifying_question d)).
Proof.
  destruct v as [ | | | | | | fields]; simpl; try discriminate.
  destruct (field fields "selected_prompt_id" as_str) as [sel | ] eqn:Hsel; [ | discriminate].
  destruct (field fields "missing_variables" as_list_str) as [mv | ] eqn:Hmv; [ | discriminate].
  destruct (field fields "clarifying_question" as_str) as [q | ] eqn:Hq; [ | discriminate].
  intros H. injection H as <-. simpl.
  exists fields. repeat split;
    auto using field_str_inv, field_list_str_inv.
Qed.

Lemma validate_DispatcherDecision_fields v d :
  validate_DispatcherDecision v = Some d ->
  exists fields,
    v = JObj fields
    /\ dict_get fields "categories" = Some (JArr (map JStr (categories d)))
    /\ dict_get fields "reasoning" = Some (JStr (reasoning d)).
Proof.
  destruct v as [ | | | | | | fields]; simpl; try discriminate.
  destruct (field fields "categories" as_list_str) as [cs | ] eqn:Hcs; [ | discriminate].
  destruct (field fields "reasoning" as_str) as [r | ] eqn:Hr; [ | discriminate].
  intros H. injection H as <-. simpl.
  exists fields. repeat split;
    auto using field_str_inv, field_list_str_inv.
Qed.

(** A structured answer that is a value is the client's text, decoded to a
    document the schema accepts. *)
Lemma structured_answer_inv rt A (c : Client) req cls
    (validate : json -> option A) (a : A) :
  structured_answer rt c req cls validate = Return a ->
  exists response doc,
    models_generate_content c req = Return response
    /\ json_loads rt (text response) = Some doc
    /\ validate doc = Some a.
Proof.
  unfold structured_answer, model_validate_json.
  destruct (models_generate_content c req) as [response | e] eqn:Hc; [ | discriminate].
  destruct (json_loads rt (text response)) as [doc | ] eqn:Hd; [ | discriminate].
  destruct (validate doc) as [a' | ] eqn:Hv; [ | discriminate].
  intros H. injection H as <-. exists response, doc. auto.
Qed.

(* ================================================================== *)
(** ** Phase 3: what the decision holds *)
(* ================================================================== *)

Example specialist_runs :
  phase_3_specialist reference_runtime Scenario.ask [Scenario.P1] Scenario.sarah
    (Scenario.router (Scenario.answering (Scenario.specialist_says "P1" ["company"] "Which company?")))
    []
  = (Return {| selected_prompt_id := "P1";
               missing_variables := ["company"];
               clarifying_question := "Which company?" |},
     Scenario.router (Scenario.answering (Scenario.specialist_says "P1" ["company"] "Which company?")),
     [GenerateContent (specialist_request reference_runtime Scenario.ask [Scenario.P1] Scenario.sarah)]).
Proof. vm_compute. reflexivity. Qed.

(** Not so on the code: the decision is the client's answer, as it came.
    With [prospect_name] known and [company] not, an answer that selects
    P1 and lists nothing as missing is returned as it is. *)
Lemma missing_variables_not_difference : ~ missing_variables_is_difference.
Proof.
  intros claim.
  pose (answer := Scenario.specialist_says "P1" [] EmptyString).
  pose (self := Scenario.router (Scenario.answering answer)).
  assert (Hrun : phase_3_specialist reference_runtime Scenario.ask [Scenario.P1]
                   Scenario.sarah self []
                 = (Return {| selected_prompt_id := "P1";
                              missing_variables := [];
                              clarifying_question := EmptyString |},
                    self,
                    [GenerateContent (specialist_request reference_runtime
                                        Scenario.ask [Scenario.P1] Scenario.sarah)]))
    by (vm_compute; reflexivity).
  specialize (claim _ _ _ _ _ _ _ _ _ Scenario.P1 Hrun).
  simpl in claim.
  assert (Hset : same_set [] (variables_not_in_context Scenario.P1 Scenario.sarah)).
  { apply claim; [discriminate | left; reflexivity | reflexivity]. }
  destruct (Hset "company") as [_ Hback].
  apply Hback. vm_compute. left. reflexivity.
Qed.

(** C1 (amended): for every decision phase 3 returns, [missing_variables]
    is the list of strings in the [missing_variables] field of the JSON
    document the Generation Client answered the phase's one request with;
    the router takes it as it comes and compares it with neither the
    selected template's variables nor the keys of the context. *)
Theorem missing_variables_as_answered
    rt self user_query top_3_prompts session_context t d self' t' :
  phase_3_specialist rt user_query top_3_prompts session_context self t
    = (Return d, self', t') ->
  exists response fields,
    models_generate_content (client self)
      (specialist_request rt user_query top_3_prompts session_context)
      = Return response
    /\ json_loads rt (text response) = Some (JObj fields)
    /\ dict_get fields "missing_variables"
       = Some (JArr (map JStr (missing_variables d))).
Proof.
  rewrite phase_3_specialist_run. intros H.
  injection H as Hanswer _ _.
  destruct (structured_answer_inv _ _ _ _ _ Hanswer) as (response & doc & Hc & Hd & Hv).
  destruct (validate_SpecialistDecision_fields _ Hv) as (fields & -> & _ & Hmv & _).
  exists response, fields. auto.
Qed.

Lemma missing_variables_as_answered_witness :
  exists response fields,
    models_generate_content
      (client (Scenario.router (Scenario.answering
                 (Scenario.specialist_says "P1" ["company"] "Which company?"))))
      (specialist_request reference_runtime Scenario.ask [Scenario.P1] Scenario.sarah)
      = Return response
    /\ json_loads reference_runtime (text response) = Some (JObj fields)
    /\ dict_get fields "missing_variables" = Some (JArr (map JStr ["company"])).
Proof.
  apply (@missing_variables_as_answered
           reference_runtime
           (Scenario.router (Scenario.answering
              (Scenario.specialist_says "P1" ["company"] "Which company?")))
           Scenario.ask [Scenario.P1] Scenario.sarah []
           {| selected_prompt_id := "P1";
              missing_variables := ["company"];
              clarifying_question := "Which company?" |}
           (Scenario.router (Scenario.answering
              (Scenario.specialist_says "P1" ["company"] "Which company?")))
           [GenerateContent (specialist_request reference_runtime
                               Scenario.ask [Scenario.P1] Scenario.sarah)]).
  vm_compute. reflexivity.
Defined.

(** Not so on the code: an answer that names a missing variable and leaves
    the question empty is returned as it is. *)
Lemma clarifying_question_not_iff : ~ clarifying_question_empty_iff.
Proof.
  intros claim.
  pose (answer := Scenario.specialist_says "P1" ["company"] EmptyString).
  pose (self := Scenario.router (Scenario.answering answer)).
  assert (Hrun : phase_3_specialist reference_runtime Scenario.ask [Scenario.P1]
                   Scenario.sarah self []
                 = (Return {| selected_prompt_id := "P1";
                              missing_variables := ["company"];
                              clarifying_question := EmptyString |},
                    self,
                    [GenerateContent (specialist_request reference_runtime
                                        Scenario.ask [Scenario.P1] Scenario.sarah)]))
    by (vm_compute; reflexivity).
  destruct (claim _ _ _ _ _ _ _ _ _ Hrun) as [Hempty _].
  destruct (Hempty eq_refl) as [Hnone _].
  discriminate Hnone.
Qed.

(** C2 (amended): for every decision phase 3 returns, [clarifying_question]
    is the string in the [clarifying_question] field of the JSON document
    the Generation Client answered with; the router neither empties nor
    fills it, whatever [missing_variables] and [selected_prompt_id] are. *)
Theorem clarifying_question_as_answered
    rt self user_query top_3_prompts session_context t d self' t' :
  phase_3_specialist rt user_query top_3_prompts session_context self t
    = (Return d, self', t') ->
  exists response fields,
    models_generate_content (client self)
      (specialist_request rt user_query top_3_prompts session_context)
      = Return response
    /\ json_loads rt (text response) = Some (JObj fields)
    /\ dict_get fields "clarifying_question" = Some (JStr (clarifying_question d)).
Proof.
  rewrite phase_3_specialist_run. intros H.
  injection H as Hanswer _ _.
  apply structured_answer_inv in Hanswer.
  destruct Hanswer as (response & doc & Hc & Hd & Hv).
  apply validate_SpecialistDecision_fields in Hv.
  destruct Hv as (fields & -> & _ & _ & Hq).
  exists response, fields. repeat split; assumption.
Qed.

Lemma clarifying_question_as_answered_witness :
  exists response fields,
    models_generate_content
      (client (Scenario.router (Scenario.answering
                 (Scenario.specialist_says "NONE" [] "That is not covered; what else?"))))
      (specialist_request reference_runtime Scenario.ask [Scenario.P1; Scenario.P2] Scenario.sarah)
      = Return response
    /\ json_loads reference_runtime (text response) = Some (JObj fields)
    /\ dict_get fields "clarifying_question"
       = Some (JStr "That is not covered; what else?").
Proof.
  apply (@clarifying_question_as_answered
           reference_runtime
           (Scenario.router (Scenario.answering
              (Scenario.specialist_says "NONE" [] "That is not covered; what else?")))
           Scenario.ask [Scenario.P1; Scenario.P2] Scenario.sarah []
           {| selected_prompt_id := "NONE";
              missing_variables := [];
              clarifying_question := "That is not covered; what else?" |}
           (Scenario.router (Scenario.answering
              (Scenario.specialist_says "NONE" [] "That is not covered; what else?")))
           [GenerateContent (specialist_request reference_runtime
                               Scenario.ask [Scenario.P1; Scenario.P2] Scenario.sarah)]).
  vm_compute. reflexivity.
Defined.

(** Not so on the code: an answer that selects an id no candidate carries
    is returned as it is. *)
Lemma selection_outside_candidates : ~ selection_is_sentinel_or_candidate.
Proof.
  intros claim.
  pose (answer := Scenario.specialist_says "P9" [] EmptyString).
  pose (self := Scenario.router (Scenario.answering answer)).
  assert (Hrun : phase_3_specialist reference_runtime Scenario.ask
                   [Scenario.P1; Scenario.P2] Scenario.sarah self []
                 = (Return {| selected_prompt_id := "P9";
                              missing_variables := [];
                              clarifying_question := EmptyString |},
                    self,
                    [GenerateContent (specialist_request reference_runtime
                                        Scenario.ask [Scenario.P1; Scenario.P2] Scenario.sarah)]))
    by (vm_compute; reflexivity).
  destruct (claim _ _ _ _ _ _ _ _ _ Hrun) as [Hnone | (p & Hin & Hid)].
  - discriminate Hnone.
  - simpl in Hin, Hid.
    destruct Hin as [<- | [<- | []]]; vm_compute in Hid; discriminate Hid.
Qed.

(** C7 (amended): for every decision phase 3 returns, [selected_prompt_id]
    is the string in the [selected_prompt_id] field of the JSON document
    the Generation Client answered with; the router only tells the sentinel
    from the rest and does not look the id up among the candidates. *)
Theorem selected_prompt_id_as_answered
    rt self user_query top_3_prompts session_context t d self' t' :
  phase_3_specialist rt user_query top_3_prompts session_context self t
    = (Return d, self', t') ->
  exists response fields,
    models_generate_content (client self)
      (specialist_request rt user_query top_3_prompts session_context)
      = Return response
    /\ json_loads rt (text response) = Some (JObj fields)
    /\ dict_get fields "selected_prompt_id" = Some (JStr (selected_prompt_id d)).
Proof.
  rewrite phase_3_specialist_run.
  intros [= Hanswer _ _].
  destruct (structured_answer_inv _ _ _ _ _ Hanswer) as (response & doc & Hc & Hd & Hv).
  destruct (validate_SpecialistDecision_fields _ Hv) as (fields & Hdoc & Hsel & _).
  subst doc. eauto.
Qed.

Lemma selected_prompt_id_as_answered_witness :
  exists response fields,
    models_generate_content
      (client (Scenario.router (Scenario.answering
                 (Scenario.specialist_says "P2" [] EmptyString))))
      (specialist_request reference_runtime Scenario.ask [Scenario.P1; Scenario.P2] Scenario.sarah)
      = Return response
    /\ json_loads reference_runtime (text response) = Some (JObj fields)
    /\ dict_get fields "selected_prompt_id" = Some (JStr "P2").
Proof.
  apply (@selected_prompt_id_as_answered
           reference_runtime
           (Scenario.router (Scenario.answering
              (Scenario.specialist_says "P2" [] EmptyString)))
           Scenario.ask [Scenario.P1; Scenario.P2] Scenario.sarah []
           {| selected_prompt_id := "P2";
              missing_variables := [];
              clarifying_question := EmptyString |}
           (Scenario.router (Scenario.answering
              (Scenario.specialist_says "P2" [] EmptyString)))
           [GenerateContent (specialist_request reference_runtime
                               Scenario.ask [Scenario.P1; Scenario.P2] Scenario.sarah)]).
  vm_compute. reflexivity.
Defined.

(* ================================================================== *)
(** ** Phase 3 on an empty candidate list *)
(* ================================================================== *)

Lemma generation_calls_app t1 t2 :
  generation_calls (t1 ++ t2) = (generation_calls t1 + generation_calls t2)%nat.
Proof.
  unfold generation_calls. rewrite filter_app, length_app. reflexivity.
Qed.

(** Not so on the code: the phase has no check on its candidates.  With
    none, the request goes out all the same and the answer is returned. *)
Lemma empty_candidates_not_rejected : ~ empty_candidates_rejected.
Proof.
  intros claim.
  pose (answer := Scenario.specialist_says "NONE" [] "Nothing fits; what do you need?").
  destruct (claim reference_runtime (Scenario.router (Scenario.answering answer))
                  Scenario.ask Scenario.sarah [])
    as (e & self' & t' & Hrun & _ & _).
  vm_compute in Hrun. discriminate Hrun.
Qed.

(** C5 (amended): invoked with an empty candidate list, phase 3 does not
    fail on that account: it sends its one request to the Generation
    Client, with an empty list of available prompts, and its outcome is the
    client's answer validated against the schema, or the exception the
    client or the validation raised. *)
Theorem empty_candidates_one_request rt self user_query session_context t :
  let request := specialist_request rt user_query [] session_context in
  let '(result, _, t') :=
    phase_3_specialist rt user_query [] session_context self t in
  t' = (t ++ [GenerateContent request])%list
  /\ generation_calls t' = S (generation_calls t)
  /\ result = structured_answer rt (client self) request
                "SpecialistDecision" validate_SpecialistDecision.
Proof.
  rewrite phase_3_specialist_run. cbv zeta.
  repeat split.
  rewrite generation_calls_app. apply Nat.add_1_r.
Qed.

(* ================================================================== *)
(** ** Phase 1: what the decision holds *)
(* ================================================================== *)

Example taxonomy_of_summary :
  taxonomy Scenario.summary = ["Prospecting"; "Objection Handling"].
Proof. reflexivity. Qed.

(** Not so on the code: an answer with one category, and that one unknown,
    is returned as it is. *)
Lemma dispatcher_picks_unchecked : ~ dispatcher_picks_two_known.
Proof.
  intros claim.
  pose (answer := Scenario.dispatcher_says ["Astrology"] "closest match").
  pose (self := Scenario.router (Scenario.answering answer)).
  assert (Hrun : phase_1_dispatcher reference_runtime Scenario.ask self []
                 = (Return {| categories := ["Astrology"]; reasoning := "closest match" |},
                    self,
                    [GenerateContent (dispatcher_request reference_runtime
                                        Scenario.summary Scenario.ask)]))
    by (vm_compute; reflexivity).
  destruct (claim _ _ _ _ _ _ _ Hrun) as [Hlen _].
  discriminate Hlen.
Qed.

(** C6 (amended): for every decision phase 1 returns, [categories] is the
    list of strings in the [categories] field of the JSON document the
    Generation Client answered with, of whatever length and whether or not
    its names are in the taxonomy; the schema asks for a list of strings
    and nothing more. *)
Theorem categories_as_answered rt self user_query t d self' t' :
  phase_1_dispatcher rt user_query self t = (Return d, self', t') ->
  exists response fields,
    models_generate_content (client self)
      (dispatcher_request rt (category_summary self) user_query)
      = Return response
    /\ json_loads rt (text response) = Some (JObj fields)
    /\ dict_get fields "categories" = Some (JArr (map JStr (categories d))).
Proof.
  rewrite phase_1_dispatcher_run.
  intros [= Hanswer _ _].
  destruct (structured_answer_inv _ _ _ _ _ Hanswer) as (response & doc & Hc & Hd & Hv).
  destruct (validate_DispatcherDecision_fields _ Hv) as (fields & -> & Hcs & _).
  exists response, fields. auto.
Qed.

Lemma categories_as_answered_witness :
  exists response fields,
    models_generate_content
      (client (Scenario.router (Scenario.answering
                 (Scenario.dispatcher_says ["Prospecting"; "Objection Handling"] "an opener"))))
      (dispatcher_request reference_runtime
         (category_summary (Scenario.router (Scenario.answering
            (Scenario.dispatcher_says ["Prospecting"; "Objection Handling"] "an opener"))))
         Scenario.ask)
      = Return response
    /\ json_loads reference_runtime (text response) = Some (JObj fields)
    /\ dict_get fields "categories"
       = Some (JArr (map JStr ["Prospecting"; "Objection Handling"])).
Proof.
  apply (@categories_as_answered
           reference_runtime
           (Scenario.router (Scenario.answering
              (Scenario.dispatcher_says ["Prospecting"; "Objection Handling"] "an opener")))
           Scenario.ask []
           {| categories := ["Prospecting"; "Objection Handling"]; reasoning := "an opener" |}
           (Scenario.router (Scenario.answering
              (Scenario.dispatcher_says ["Prospecting"; "Objection Handling"] "an opener")))
           [GenerateContent (dispatcher_request reference_runtime
                               Scenario.summary Scenario.ask)]).
  vm_compute. reflexivity.
Defined.

(* ================================================================== *)
(** ** Phase 4 on an unknown id *)
(* ================================================================== *)


(** A lookup that finds nothing goes through the whole list: it ends in
    [None] when every element has an ['id'], and raises at the first
    element that has none. *)
Lemma next_with_id_miss ps wanted :
  no_template_with_id wanted ps ->
  (all_have_id ps -> next_with_id ps wanted = Return None)
  /\ (some_without_id ps -> next_with_id ps wanted = Raise (KeyError "id")).
Proof.
  unfold no_template_with_id, some_without_id, all_have_id.
  induction 1 as [ | p rest Hp _ [IHall IHsome]]; simpl.
  - split; [reflexivity | ]. intros Hex. inversion Hex.
  - unfold getitem. unfold has_id in Hp.
    destruct (dict_get p "id") as [v | ] eqn:Hid.
    + rewrite Hp. split.
      * intros Hall. apply IHall. inversion Hall; assumption.
      * intros Hex. apply IHsome.
        inversion Hex as [? ? Hnone | ? ? Hrest]; subst; [congruence | exact Hrest].
    + split; [ | reflexivity].
      intros Hall. inversion Hall as [ | ? ? Hhas _]; subst. contradiction.
Qed.



(** A corpus with a template that has no ['id']: an unknown id raises. *)
Example unknown_prompt_on_corpus_without_ids :
  phase_4_generator reference_runtime "P9" Scenario.sarah
    {| client := Scenario.answering "Dear Sarah, ...";
       base_dir := "/srv/moltsales";
       category_summary := Scenario.summary;
       prompts := [[("category", JStr "Prospecting"); ("template", JStr "Hi")];
                   Scenario.P1];
       qdrant := Scenario.store;
       use_sparse := false;
       collection_name := "prompts" |} []
  = (Raise (KeyError "id"),
     {| client := Scenario.answering "Dear Sarah, ...";
        base_dir := "/srv/moltsales";
        category_summary := Scenario.summary;
        prompts := [[("category", JStr "Prospecting"); ("template", JStr "Hi")];
                    Scenario.P1];
        qdrant := Scenario.store;
        use_sparse := false;
        collection_name := "prompts" |}, []).
Proof. reflexivity. Qed.

(** On a known id the phase sends one free-text request and returns the
    answer verbatim. *)
Example known_prompt_generates :
  let self := Scenario.router (Scenario.answering "Dear Sarah, ...") in
  exists req,
    phase_4_generator reference_runtime "P1" Scenario.sarah self []
    = (Return "Dear Sarah, ...", self, [GenerateContent req])
    /\ config req = None.
Proof. eexists. split; vm_compute; reflexivity. Qed.

(* ================================================================== *)
(** ** Phase 2: at most three, filtered, best first *)
(* ================================================================== *)

Lemma firstn_In A n : forall (l : list A) y, In y (firstn n l) -> In y l.
Proof.
  induction n as [ | n IH]; intros [ | x rest] y; simpl; try tauto.
  intros [-> | Hy]; [left; reflexivity | right; apply IH, Hy].
Qed.

Section RankFacts.
Variable A : Type.
Variable sc : A -> Z.

Lemma insert_ranked_perm x l : Permutation (x :: l) (insert_ranked sc x l).
Proof.
  induction l as [ | y rest IH]; simpl.
  - apply Permutation_refl.
  - destruct (sc y <=? sc x).
    + apply Permutation_refl.
    + apply perm_trans with (y :: x :: rest); [apply perm_swap | ].
      apply perm_skip, IH.
Qed.

Lemma rank_perm l : Permutation (rank sc l) l.
Proof.
  induction l as [ | x rest IH]; simpl.
  - constructor.
  - apply Permutation_sym.
    apply perm_trans with (x :: rank sc rest).
    + apply perm_skip, Permutation_sym, IH.
    + apply insert_ranked_perm.
Qed.

Lemma insert_ranked_sorted x l :
  StronglySorted (no_worse sc) l -> StronglySorted (no_worse sc) (insert_ranked sc x l).
Proof.
  induction 1 as [ | y rest Hrest IH Hy]; simpl.
  - repeat constructor.
  - destruct (sc y <=? sc x) eqn:Hle.
    + apply Z.leb_le in Hle.
      constructor; [constructor; assumption | ].
      constructor; [exact Hle | ].
      eapply Forall_impl; [ | exact Hy].
      unfold no_worse. intros z Hz. lia.
    + apply Z.leb_gt in Hle.
      constructor; [exact IH | ].
      apply (Permutation_Forall (insert_ranked_perm x rest)).
      constructor; [unfold no_worse; lia | exact Hy].
Qed.

Lemma rank_sorted l : StronglySorted (no_worse sc) (rank sc l).
Proof.
  induction l; simpl; [constructor | apply insert_ranked_sorted; assumption].
Qed.

Lemma firstn_sorted n : forall l,
  StronglySorted (no_worse sc) l -> StronglySorted (no_worse sc) (firstn n l).
Proof.
  induction n as [ | n IH]; intros l Hl; simpl; [constructor | ].
  destruct Hl as [ | x rest Hrest Hx]; constructor.
  - apply IH, Hrest.
  - apply Forall_forall. intros y Hy.
    apply (proj1 (Forall_forall _ _) Hx), (@firstn_In A n rest y Hy).
Qed.
End RankFacts.

Lemma mem_str_In s l : mem_str s l = true -> In s l.
Proof.
  unfold mem_str. rewrite existsb_exists.
  intros (x & Hin & Heq). apply String.eqb_eq in Heq. subst. exact Hin.
Qed.

Lemma satisfies_category cats p :
  satisfies (by_category cats) p = true -> category_in cats (payload p).
Proof.
  unfold satisfies, by_category, field_matches. simpl.
  rewrite andb_true_r.
  destruct (dict_get (payload p) "category") as [[ | | | | c | | ] | ] eqn:Hget;
    try discriminate.
  intros Hmem. exists c. split; [exact Hget | exact (mem_str_In _ _ Hmem)].
Qed.

Lemma satisfies_none cats pts :
  (forall p, In p pts -> ~ category_in cats (payload p)) ->
  filter (satisfies (by_category cats)) pts = [].
Proof.
  induction pts as [ | p rest IH]; intros Hnone; simpl; [reflexivity | ].
  destruct (satisfies (by_category cats) p) eqn:Hsat.
  - exfalso. apply (Hnone p); [left; reflexivity | ].
    apply satisfies_category, Hsat.
  - apply IH. intros q Hq. apply Hnone. right. exact Hq.
Qed.

Lemma getitems_returns ps k :
  Forall (fun p => dict_get p k <> None) ps -> exists vs, getitems ps k = Return vs.
Proof.
  induction 1 as [ | p rest Hp _ (vs & IH)]; simpl.
  - exists []. reflexivity.
  - unfold getitem. destruct (dict_get p k) as [v | ]; [ | contradiction].
    rewrite IH. exists (v :: vs). reflexivity.
Qed.

Lemma getitems_raises ps k e :
  getitems ps k = Raise e ->
  e = KeyError k /\ Exists (fun p => dict_get p k = None) ps.
Proof.
  induction ps as [ | p rest IH]; simpl; [discriminate | ].
  unfold getitem. destruct (dict_get p k) as [v | ] eqn:Hp.
  - destruct (getitems rest k) as [vs | e']; [discriminate | ].
    intros [= <-]. destruct (IH eq_refl) as [He Hex].
    split; [exact He | apply Exists_cons_tl, Hex].
  - intros [= <-]. split; [reflexivity | apply Exists_cons_hd, Hp].
Qed.

Lemma phase_2_search_run user_query top_categories self t :
  phase_2_search user_query top_categories self t =
  (match find_collection (collections (qdrant self)) (collection_name self) with
   | None =>
       Raise (mkExn "ValueError" ("Collection " ++ collection_name self ++ " not found"))
   | Some pts =>
       let top_3 := retrieved (qdrant self) user_query top_categories pts in
       match getitems top_3 "id" with
       | Return _ => Return top_3
       | Raise e => Raise e
       end
   end,
   self,
   (t ++ [QdrantQuery (collection_name self) user_query (by_category top_categories) 3])%list).
Proof.
  unfold phase_2_search, store_query, qdrant_query, retrieved, by_category,
    bind, get, emit, lift, ret.
  destruct (find_collection (collections (qdrant self)) (collection_name self))
    as [pts | ]; [ | reflexivity].
  cbv zeta. rewrite map_map. cbn [QueryResponse.metadata].
  destruct (map _ _) as [ | p rest]; [reflexivity | ].
  destruct (getitems (p :: rest) "id"); reflexivity.
Qed.

Lemma retrieved_length db user_query top_categories pts :
  (length (retrieved db user_query top_categories pts) <= 3)%nat.
Proof. unfold retrieved. cbv zeta. rewrite length_map. apply firstn_le_length. Qed.

Lemma retrieved_category db user_query top_categories pts :
  Forall (category_in top_categories) (retrieved db user_query top_categories pts).
Proof.
  unfold retrieved. cbv zeta.
  apply Forall_forall. intros d Hd.
  apply in_map_iff in Hd. destruct Hd as (p & <- & Hp).
  apply firstn_In in Hp.
  apply (Permutation_in _ (rank_perm _ _)) in Hp.
  apply filter_In in Hp. destruct Hp as [_ Hsat].
  apply satisfies_category, Hsat.
Qed.

Lemma retrieved_stored db user_query top_categories pts d :
  In d (retrieved db user_query top_categories pts) ->
  exists pt, In pt pts /\ payload pt = d.
Proof.
  unfold retrieved. cbv zeta. intros Hd.
  apply in_map_iff in Hd. destruct Hd as (p & <- & Hp).
  apply firstn_In in Hp.
  apply (Permutation_in _ (rank_perm _ _)) in Hp.
  apply filter_In in Hp. destruct Hp as [Hp _].
  exists p. split; [exact Hp | reflexivity].
Qed.

Lemma retrieved_ids db user_query top_categories pts :
  Forall (fun p => dict_get (payload p) "id" <> None) pts ->
  exists ids, getitems (retrieved db user_query top_categories pts) "id" = Return ids.
Proof.
  intros Hids. apply getitems_returns.
  apply Forall_forall. intros d Hd.
  destruct (retrieved_stored _ _ _ _ _ Hd) as (pt & Hpt & <-).
  exact (proj1 (Forall_forall _ _) Hids pt Hpt).
Qed.

Lemma retrieved_none db user_query top_categories pts :
  (forall p, In p pts -> ~ category_in top_categories (payload p)) ->
  retrieved db user_query top_categories pts = [].
Proof.
  intros Hnone. unfold retrieved. cbv zeta.
  rewrite (@satisfies_none top_categories pts Hnone). reflexivity.
Qed.

(** C3: for every query and category list, on a router whose collection
    has been built: whenever phase 2 returns, what it returns has at most 3
    templates, each of a category in the list, and they are the first
    three of the templates that pass the filter, in the store's order of
    relevance, best first; phase 2 returns the empty list when no stored
    template has its category in the list; and it does return when the
    stored templates all have an ['id'] (the ids of the hits are computed
    for the line that is printed). *)
Theorem phase_2_search_top_3 self user_query top_categories t pts :
  find_collection (collections (qdrant self)) (collection_name self) = Some pts ->
  (forall top_3 self' t',
     phase_2_search user_query top_categories self t = (Return top_3, self', t') ->
     (length top_3 <= 3)%nat
     /\ Forall (category_in top_categories) top_3
     /\ (exists ranked,
           let candidates := filter (satisfies (by_category top_categories)) pts in
           Permutation ranked candidates
           /\ StronglySorted (no_worse (relevance (qdrant self) user_query candidates))
                             ranked
           /\ top_3 = map payload (firstn 3 ranked)))
  /\ ((forall p, In p pts -> ~ category_in top_categories (payload p)) ->
      phase_2_search user_query top_categories self t
      = (Return [], self,
         (t ++ [QdrantQuery (collection_name self) user_query
                            (by_category top_categories) 3])%list))
  /\ (Forall (fun p => dict_get (payload p) "id" <> None) pts ->
      exists top_3 t',
        phase_2_search user_query top_categories self t = (Return top_3, self, t')).
Proof.
  intros Hcoll.
  rewrite phase_2_search_run, Hcoll. cbv zeta.
  split; [ | split].
  - intros top_3 self' t' Hrun.
    destruct (getitems _ "id") as [ids | e]; [ | discriminate Hrun].
    injection Hrun as <- _ _.
    split; [apply retrieved_length | split; [apply retrieved_category | ]].
    exists (rank (relevance (qdrant self) user_query
                    (filter (satisfies (by_category top_categories)) pts))
                 (filter (satisfies (by_category top_categories)) pts)).
    cbv zeta. split; [apply rank_perm | split; [apply rank_sorted | reflexivity]].
  - intros Hnone. rewrite (retrieved_none _ _ _ Hnone). reflexivity.
  - intros Hids.
    destruct (@getitems_returns
                (retrieved (qdrant self) user_query top_categories pts) "id")
      as (ids & Hget).
    + apply Forall_forall. intros d Hd.
      destruct (retrieved_stored _ _ _ _ _ Hd) as (pt & Hpt & <-).
      exact (proj1 (Forall_forall _ _) Hids pt Hpt).
    + rewrite Hget. eexists. eexists. reflexivity.
Qed.

Lemma phase_2_search_top_3_witness :
  find_collection (collections Scenario.store) "prompts"
    = Some [ {| point_id := 0; payload := Scenario.P1 |};
             {| point_id := 1; payload := Scenario.P2 |} ]
  /\ exists top_3 t',
       phase_2_search Scenario.ask ["Objection Handling"; "Prospecting"]
         (Scenario.router (Scenario.answering EmptyString)) []
       = (Return top_3, Scenario.router (Scenario.answering EmptyString), t')
       /\ (length top_3 <= 3)%nat
       /\ Forall (category_in ["Objection Handling"; "Prospecting"]) top_3.
Proof.
  split; [reflexivity | ].
  destruct (@phase_2_search_top_3
              (Scenario.router (Scenario.answering EmptyString))
              Scenario.ask ["Objection Handling"; "Prospecting"] []
              [ {| point_id := 0; payload := Scenario.P1 |};
                {| point_id := 1; payload := Scenario.P2 |} ]
              eq_refl)
    as (Hsafe & _ & Hreturns).
  destruct Hreturns as (top_3 & t' & Hrun).
  - repeat constructor; discriminate.
  - destruct (Hsafe top_3 _ t' Hrun) as (Hlen & Hcat & _).
    exists top_3, t'. auto.
Defined.

(** A hit without an ['id'] makes phase 2 raise where it prints the ids. *)
Example search_hit_without_id :
  fst (fst (phase_2_search Scenario.ask ["Prospecting"]
              {| client := Scenario.answering EmptyString;
                 base_dir := "/srv/moltsales";
                 category_summary := Scenario.summary;
                 prompts := [];
                 qdrant := {| collections :=
                                [("prompts",
                                  [ {| point_id := 0;
                                       payload := [("category", JStr "Prospecting")] |} ])];
                              relevance := fun _ _ _ => 0 |};
                 use_sparse := false;
                 collection_name := "prompts" |} []))
  = Raise (KeyError "id").
Proof. reflexivity. Qed.

Example search_ranks_best_first :
  fst (fst (phase_2_search Scenario.ask ["Objection Handling"; "Prospecting"]
              (Scenario.router (Scenario.answering EmptyString)) []))
  = Return [Scenario.P2; Scenario.P1].
Proof. reflexivity. Qed.

Example search_filters :
  fst (fst (phase_2_search Scenario.ask ["Prospecting"]
              (Scenario.router (Scenario.answering EmptyString)) []))
  = Return [Scenario.P1].
Proof. reflexivity. Qed.

(* ================================================================== *)
(** ** The HTTP surface: how a call fails *)
(* ================================================================== *)

Section Failures.
Variable rt : PyRuntime.

Lemma post_guarded Req cls (validate : json -> option Req)
    (block : Req -> Py json) raw self t :
  post rt cls validate (fun req => guarded (block req)) raw self t =
  match json_loads rt raw with
  | None =>
      if body_is_text rt raw
      then (Return {| status := 422;
                      body := detail_body (request_validation_errors rt cls raw) |},
            self, t)
      else (Return {| status := 400;
                      body := detail_body (JStr "There was an error parsing the body") |},
            self, t)
  | Some v =>
      match validate v with
      | None =>
          (Return {| status := 422;
                     body := detail_body (request_validation_errors rt cls raw) |}, self, t)
      | Some req => answer_of rt (block req) self t
      end
  end.
Proof.
  unfold post, answer_of, guarded, try_except, bind, ret, raise.
  destruct (json_loads rt raw) as [v | ];
    [ | destruct (body_is_text rt raw); reflexivity].
  destruct (validate v) as [req | ]; [ | reflexivity].
  destruct (block req self t) as [[[content | e] self'] t']; [ | reflexivity].
  destruct (renderable rt content); reflexivity.
Qed.

(** A call whose body decodes: it is answered 422 when the request model
    of the endpoint rejects the body, and else as its [try] block goes. *)
Lemma serve_run ep raw self t v :
  json_loads rt raw = Some v ->
  serve rt ep raw self t =
  match accepted rt ep raw with
  | None =>
      (Return {| status := 422;
                 body := detail_body (request_validation_errors rt (model_of ep) raw) |},
       self, t)
  | Some c => answer_of rt c self t
  end.
Proof.
  intros Hv. unfold accepted. rewrite Hv.
  destruct ep; simpl;
    unfold api_phase_1, api_phase_2, api_phase_3, api_phase_4.
  - rewrite (post_guarded "Phase1Request" Phase1Request.validate (try_phase_1 rt)), Hv.
    destruct (Phase1Request.validate v); reflexivity.
  - rewrite (post_guarded "Phase2Request" Phase2Request.validate try_phase_2), Hv.
    destruct (Phase2Request.validate v); reflexivity.
  - rewrite (post_guarded "Phase3Request" Phase3Request.validate (try_phase_3 rt)), Hv.
    destruct (Phase3Request.validate v); reflexivity.
  - rewrite (post_guarded "Phase4Request" Phase4Request.validate (try_phase_4 rt)), Hv.
    destruct (Phase4Request.validate v); reflexivity.
Qed.

(** A call whose body does not decode is answered by the framework, 422 or
    400, no path operation being run. *)
Lemma serve_undecoded ep raw self t :
  json_loads rt raw = None ->
  serve rt ep raw self t =
  (Return (if body_is_text rt raw
           then {| status := 422;
                   body := detail_body (request_validation_errors rt (model_of ep) raw) |}
           else {| status := 400;
                   body := detail_body (JStr "There was an error parsing the body") |}),
   self, t).
Proof.
  intros Hv.
  destruct ep; simpl; unfold post, ret; rewrite Hv;
    destruct (body_is_text rt raw); reflexivity.
Qed.

Lemma accepted_decodes ep raw c :
  accepted rt ep raw = Some c -> exists v, json_loads rt raw = Some v.
Proof.
  unfold accepted. destruct (json_loads rt raw) as [v | ]; [ | discriminate].
  intros _. exists v. reflexivity.
Qed.
End Failures.

(** Not so on the code: the path operations take their input as pydantic
    models, so that a body without [query] never reaches [api_phase_1] and
    its [try]; the framework answers 422. *)
Lemma invalid_body_is_422 : ~ failures_are_500.
Proof.
  intros claim.
  assert (Hrun : serve reference_runtime Phase1 "{}"
                   (Scenario.router (Scenario.answering EmptyString)) []
                 = (Return {| status := 422;
                              body := detail_body
                                        (request_validation_errors reference_runtime
                                           "Phase1Request" "{}") |},
                    Scenario.router (Scenario.answering EmptyString), []))
    by reflexivity.
  destruct (claim _ _ _ _ _ _ _ _ Hrun) as [H200 | [H500 _]]; discriminate.
Qed.

(** C8 (amended): a call whose body the request model of its endpoint
    accepts and whose phase raises an exception [e] is answered 500 with
    [{"detail": str(e)}], the router and the requests made being those of
    the phase; a call whose body is JSON that the request model rejects, an
    input that fails validation, is answered 422 by the framework with the
    validation errors as detail, and the phase is not run. *)
Theorem failures_answered rt ep raw self t :
  (forall block e self' t',
     accepted rt ep raw = Some block ->
     block self t = (Raise e, self', t') ->
     serve rt ep raw self t
     = (Return {| status := 500; body := detail_body (JStr (exn_str e)) |}, self', t'))
  /\ (forall v,
        json_loads rt raw = Some v ->
        accepted rt ep raw = None ->
        serve rt ep raw self t
        = (Return {| status := 422;
                     body := detail_body
                               (request_validation_errors rt (model_of ep) raw) |},
           self, t)).
Proof.
  split.
  - intros block e self' t' Hacc Hblock.
    destruct (accepted_decodes _ _ _ Hacc) as (v & Hv).
    rewrite (serve_run rt ep raw self t Hv), Hacc.
    unfold answer_of. rewrite Hblock. reflexivity.
  - intros v Hv Hacc.
    rewrite (serve_run rt ep raw self t Hv), Hacc. reflexivity.
Qed.

Lemma failures_answered_witness :
  serve reference_runtime Phase1
    (Codec.dumps (JObj [("query", JStr Scenario.ask)]))
    (Scenario.router (Scenario.answering "Sure! Here you go")) []
  = (Return {| status := 500;
               body := detail_body (JStr "1 validation error for DispatcherDecision") |},
     Scenario.router (Scenario.answering "Sure! Here you go"),
     [GenerateContent (dispatcher_request reference_runtime Scenario.summary
                         Scenario.ask)]).
Proof.
  refine (proj1 (@failures_answered reference_runtime Phase1
                   (Codec.dumps (JObj [("query", JStr Scenario.ask)]))
                   (Scenario.router (Scenario.answering "Sure! Here you go")) [])
                (try_phase_1 reference_runtime {| Phase1Request.query := Scenario.ask |})
                (mkExn "ValidationError" "1 validation error for DispatcherDecision")
                _ _ _ _).
  - unfold accepted.
    replace (json_loads reference_runtime
               (Codec.dumps (JObj [("query", JStr Scenario.ask)])))
      with (Some (JObj [("query", JStr Scenario.ask)]))
      by (vm_compute; reflexivity).
    reflexivity.
  - vm_compute. reflexivity.
Defined.

(** A phase that raises: the model's answer is not JSON. *)
Example malformed_answer_is_500 :
  fst (fst (serve reference_runtime Phase1
              (Codec.dumps (JObj [("query", JStr Scenario.ask)]))
              (Scenario.router (Scenario.answering "Sure! Here you go")) []))
  = Return {| status := 500;
              body := detail_body (JStr "1 validation error for DispatcherDecision") |}.
Proof. vm_compute. reflexivity. Qed.

(** A lookup miss in phase 4 is not a failure of the call. *)
Example unknown_prompt_is_200 :
  fst (fst (serve reference_runtime Phase4
              (Codec.dumps (JObj [("promptId", JStr "P9"); ("context", JObj Scenario.sarah)]))
              (Scenario.router (Scenario.answering "Dear Sarah, ...")) []))
  = Return {| status := 200;
              body := JObj [("output", JStr "Error: Could not find prompt in database.")] |}.
Proof. vm_compute. reflexivity. Qed.

(* ================================================================== *)
(** ** The [prompt] field of a phase 3 response *)
(* ================================================================== *)

(** The generator finds what [find] finds, unless it runs into a dict
    without ['id'] first. *)
Lemma next_with_id_find ps wanted :
  next_with_id ps wanted = Return (find (has_id wanted) ps)
  \/ (next_with_id ps wanted = Raise (KeyError "id")
      /\ Exists (fun p => dict_get p "id" = None) ps).
Proof.
  induction ps as [ | p rest IH]; simpl.
  - left. reflexivity.
  - unfold getitem, has_id.
    destruct (dict_get p "id") as [v | ] eqn:Hid.
    + destruct (eq_str v wanted).
      * left. reflexivity.
      * destruct IH as [IH | [IH Hex]].
        -- left. exact IH.
        -- right. split; [exact IH | apply Exists_cons_tl, Hex].
    + right. split; [reflexivity | apply Exists_cons_hd, Hid].
Qed.

(** When phase 3 returns a decision the endpoint answers with the
    decision and the prompt, or, if the search for the prompt met an element
    of [top3] that has no ['id'] at all, with a 500. *)
Lemma api_phase_3_outcomes rt req self t d self' t' :
  phase_3_specialist rt (Phase3Request.query req) (Phase3Request.top3 req)
    (Phase3Request.context req) self t = (Return d, self', t') ->
  api_phase_3 rt req self t
  = (Return (Respond
       (JObj [("selected_prompt_id", JStr (selected_prompt_id d));
              ("missing_variables", JArr (map JStr (missing_variables d)));
              ("clarifying_question", JStr (clarifying_question d));
              ("prompt", prompt_field (Phase3Request.top3 req) (selected_prompt_id d))])),
     self', t')
  \/ (api_phase_3 rt req self t
      = (Return (HTTPException 500 (exn_str (KeyError "id"))), self', t')
      /\ selected_prompt_id d <> "NONE"
      /\ Exists (fun p => dict_get p "id" = None) (Phase3Request.top3 req)).
Proof.
  intros Hrun.
  unfold api_phase_3, guarded, try_phase_3, try_except, bind.
  rewrite Hrun. unfold prompt_field.
  destruct (String.eqb (selected_prompt_id d) "NONE") eqn:Hsel; simpl.
  - left. reflexivity.
  - unfold lift.
    destruct (next_with_id_find (Phase3Request.top3 req) (selected_prompt_id d))
      as [Hfound | [Hraise Hex]].
    + rewrite Hfound. left. reflexivity.
    + rewrite Hraise. right. repeat split; [ | exact Hex].
      intros Heq. rewrite Heq in Hsel. discriminate Hsel.
Qed.

Lemma api_phase_3_raises rt req self t e self' t' :
  phase_3_specialist rt (Phase3Request.query req) (Phase3Request.top3 req)
    (Phase3Request.context req) self t = (Raise e, self', t') ->
  api_phase_3 rt req self t = (Return (HTTPException 500 (exn_str e)), self', t').
Proof.
  intros Hrun.
  unfold api_phase_3, guarded, try_phase_3, try_except, bind.
  rewrite Hrun. reflexivity.
Qed.

(** The content the path operation responds with is the decision and the
    prompt looked up in [top3]. *)
Lemma api_phase_3_content rt req self t content self' t' :
  api_phase_3 rt req self t = (Return (Respond content), self', t') ->
  exists d,
    phase_3_specialist rt (Phase3Request.query req) (Phase3Request.top3 req)
      (Phase3Request.context req) self t = (Return d, self', t')
    /\ content
       = JObj [("selected_prompt_id", JStr (selected_prompt_id d));
               ("missing_variables", JArr (map JStr (missing_variables d)));
               ("clarifying_question", JStr (clarifying_question d));
               ("prompt", prompt_field (Phase3Request.top3 req) (selected_prompt_id d))].
Proof.
  intros Hresp.
  destruct (phase_3_specialist rt (Phase3Request.query req) (Phase3Request.top3 req)
              (Phase3Request.context req) self t) as [[[d | e] self1] t1] eqn:Hrun.
  - destruct (@api_phase_3_outcomes rt req self t d self1 t1 Hrun) as [Hok | [Hko _]];
      rewrite Hresp in *.
    + injection Hok as -> -> ->. exists d. split; reflexivity.
    + discriminate Hko.
  - rewrite (@api_phase_3_raises rt req self t e self1 t1 Hrun) in Hresp. discriminate Hresp.
Qed.




Example sentinel_has_no_prompt :
  prompt_field [Scenario.P1; Scenario.P2] "NONE" = JNull.
Proof. reflexivity. Qed.

Example stray_id_has_no_prompt :
  prompt_field [Scenario.P1; Scenario.P2] "P9" = JNull.
Proof. reflexivity. Qed.

(** An element without ['id'] before the selected one. *)
Example candidate_without_id_is_500 :
  fst (fst (api_phase_3 reference_runtime
              {| Phase3Request.query := Scenario.ask;
                 Phase3Request.top3 := [[("use_case", JStr "untitled")]; Scenario.P1];
                 Phase3Request.context := Scenario.sarah |}
              (Scenario.router (Scenario.answering
                 (Scenario.specialist_says "P1" ["company"] "Which company?")))
              []))
  = Return (HTTPException 500 "'id'").
Proof. vm_compute. reflexivity. Qed.

(* ================================================================== *)
(** ** The phases leave the router as it was *)
(* ================================================================== *)

Section Stateless.
Variable rt : PyRuntime.

(** An assignment to an attribute of [self] is not framed. *)
Lemma put_not_framed (self other : SalesPromptRouter) :
  base_dir other <> base_dir self -> ~ framed (put (E := call) other) self.
Proof.
  intros Hne (result & calls & Hput).
  specialize (Hput []). unfold put in Hput.
  injection Hput as _ Hself _.
  apply Hne. rewrite Hself. reflexivity.
Qed.

Lemma framed_bind_ret A B (c : Py A) (f : A -> B) self :
  framed c self -> framed (x <- c ;; ret (f x)) self.
Proof.
  intros (result & calls & Hc).
  exists (match result with Return a => Return (f a) | Raise e => Raise e end), calls.
  intros t. unfold bind, ret. rewrite Hc. destruct result; reflexivity.
Qed.

Lemma phase_4_generator_framed prompt_id session_context self :
  framed (phase_4_generator rt prompt_id session_context) self.
Proof.
  unfold framed, phase_4_generator, generate_content, bind, get, lift, emit, ret.
  destruct (next_with_id (prompts self) prompt_id) as [[p | ] | e].
  - destruct (negb (dict_truthy p)).
    + exists (Return not_found), []. intros t. rewrite app_nil_r. reflexivity.
    + destruct (getitem p "template") as [template | e].
      * match goal with
        | |- context [models_generate_content (client self) ?r] =>
            destruct (models_generate_content (client self) r) as [response | e];
            [ exists (Return (text response)), [GenerateContent r]
            | exists (Raise e), [GenerateContent r] ];
            intros t; reflexivity
        end.
      * exists (Raise e), []. intros t. rewrite app_nil_r. reflexivity.
  - exists (Return not_found), []. intros t. rewrite app_nil_r. reflexivity.
  - exists (Raise e), []. intros t. rewrite app_nil_r. reflexivity.
Qed.

Lemma invoke_framed c self : framed (invoke rt c) self.
Proof.
  destruct c; simpl; apply framed_bind_ret.
  - eexists. eexists. intros t. apply phase_1_dispatcher_run.
  - eexists. eexists. intros t. apply phase_2_search_run.
  - eexists. eexists. intros t. apply phase_3_specialist_run.
  - apply phase_4_generator_framed.
Qed.

Lemma invoke_all_framed cs self :
  exists calls, forall t, invoke_all rt cs self t = (Return tt, self, (t ++ calls)%list).
Proof.
  induction cs as [ | c rest (calls & IH)]; simpl.
  - exists []. intros t. rewrite app_nil_r. reflexivity.
  - destruct (invoke_framed c self) as (result & calls1 & Hc).
    exists (calls1 ++ calls)%list. intros t.
    unfold bind, try_except, ret. rewrite Hc.
    destruct result; rewrite IH, app_assoc; reflexivity.
Qed.
End Stateless.

(** C9: a call of any of the four phases, after any calls of the phases
    before it, leaves the router as it was at the start, the prompt corpus
    and the category summary with it, and its outcome is the one the same
    call has on the router at the start: nothing of a call stays behind on
    the router for a later one. *)
Theorem phases_are_stateless rt (earlier : list phase_call) (c : phase_call) self t :
  let '(_, self1, t1) := invoke_all rt earlier self t in
  let '(result, self2, _) := invoke rt c self1 t1 in
  self1 = self
  /\ self2 = self
  /\ prompts self2 = prompts self
  /\ category_summary self2 = category_summary self
  /\ result = fst (fst (invoke rt c self [])).
Proof.
  destruct (invoke_all_framed rt earlier self) as (calls & Hall).
  destruct (invoke_framed rt c self) as (result & calls1 & Hc).
  rewrite Hall, !Hc. simpl. repeat split.
Qed.

(* ================================================================== *)
(** ** Dicts *)
(* ================================================================== *)

Lemma dict_get_set_same d k v : dict_get (dict_set d k v) k = Some v.
Proof.
  induction d as [ | [k' v'] rest IH]; simpl.
  - rewrite String.eqb_refl. reflexivity.
  - destruct (String.eqb k' k) eqn:Hk; simpl; rewrite Hk; [reflexivity | exact IH].
Qed.

Lemma dict_get_set_other d k v k' :
  k' <> k -> dict_get (dict_set d k v) k' = dict_get d k'.
Proof.
  intros Hne.
  induction d as [ | [k0 v0] rest IH]; simpl.
  - destruct (String.eqb k k') eqn:Hk; [ | reflexivity].
    apply String.eqb_eq in Hk. congruence.
  - destruct (String.eqb k0 k) eqn:Hk; simpl.
    + apply String.eqb_eq in Hk. subst k0.
      destruct (String.eqb k k') eqn:Hk'; [ | reflexivity].
      apply String.eqb_eq in Hk'. congruence.
    + rewrite IH. reflexivity.
Qed.

Lemma dict_get_keys d k v : dict_get d k = Some v -> In k (dict_keys d).
Proof.
  induction d as [ | [k' v'] rest IH]; simpl; [discriminate | ].
  destruct (String.eqb k' k) eqn:Hk.
  - apply String.eqb_eq in Hk. intros _. left. exact Hk.
  - intros H. right. apply IH, H.
Qed.

Lemma In_mem_str s l : In s l -> mem_str s l = true.
Proof.
  intros Hin. unfold mem_str. apply existsb_exists.
  exists s. split; [exact Hin | apply String.eqb_refl].
Qed.

(** The payload of a stored document holds what its metadata holds, under
    every key but ["document"]. *)
Lemma document_payload_get doc meta k :
  k <> "document" ->
  dict_get (document_payload doc meta) k = dict_get meta k.
Proof.
  intros Hne. unfold document_payload. cbn [dict_get].
  destruct (String.eqb "document" k) eqn:Hk.
  - apply String.eqb_eq in Hk. congruence.
  - clear Hk. induction meta as [ | [k' v'] rest IH]; cbn [filter dict_get fst]; [reflexivity | ].
    destruct (String.eqb k' "document") eqn:Hd; cbn [negb dict_get].
    + apply String.eqb_eq in Hd. subst k'.
      destruct (String.eqb "document" k) eqn:Hk; [ | exact IH].
      apply String.eqb_eq in Hk. congruence.
    + destruct (String.eqb k' k); [reflexivity | exact IH].
Qed.

(* ================================================================== *)
(** ** Phase 4 on a known id *)
(* ================================================================== *)

Lemma next_with_id_found ps wanted :
  all_have_id ps -> next_with_id ps wanted = Return (find (has_id wanted) ps).
Proof.
  intros Hids.
  destruct (next_with_id_find ps wanted) as [Hfound | [_ Hex]]; [exact Hfound | ].
  exfalso. apply Exists_exists in Hex. destruct Hex as (p & Hin & Hnone).
  exact (proj1 (Forall_forall _ _) Hids p Hin Hnone).
Qed.

Lemma dict_get_truthy d k v : dict_get d k = Some v -> dict_truthy d = true.
Proof. destruct d; [discriminate | reflexivity]. Qed.

(** X1: on a corpus whose templates all have an id, phase 4 called with
    the id of a template takes the first template with that id; if it has a
    ['template'], the phase sends exactly one request, a free-text one
    built from that template, its metadata and the whole context, and gives
    back the text of the answer as it is, or what the client raised; the
    router is left as it was. *)
Theorem phase_4_generates_verbatim rt self prompt_id session_context t p template :
  all_have_id (prompts self) ->
  find (has_id prompt_id) (prompts self) = Some p ->
  dict_get p "template" = Some template ->
  phase_4_generator rt prompt_id session_context self t
  = (text_answer (client self) (generator_request rt p template session_context),
     self,
     (t ++ [GenerateContent (generator_request rt p template session_context)])%list).
Proof.
  intros Hids Hfind Htemplate.
  unfold phase_4_generator, generate_content, text_answer, generator_request,
    bind, get, lift, emit, ret.
  rewrite (next_with_id_found _ Hids), Hfind.
  rewrite (dict_get_truthy _ _ Htemplate). cbn [negb].
  unfold getitem. rewrite Htemplate.
  destruct (models_generate_content (client self) _); reflexivity.
Qed.

Lemma phase_4_generates_verbatim_witness :
  phase_4_generator reference_runtime "P2" Scenario.sarah
    (Scenario.router (Scenario.answering "Sarah, on price: value first.")) []
  = (text_answer (Scenario.answering "Sarah, on price: value first.")
       (generator_request reference_runtime Scenario.P2
          (JStr "{{prospect_name}}, on price: ...") Scenario.sarah),
     Scenario.router (Scenario.answering "Sarah, on price: value first."),
     ([] ++ [GenerateContent
               (generator_request reference_runtime Scenario.P2
                  (JStr "{{prospect_name}}, on price: ...") Scenario.sarah)])%list).
Proof.
  apply (@phase_4_generates_verbatim reference_runtime
           (Scenario.router (Scenario.answering "Sarah, on price: value first."))
           "P2" Scenario.sarah [] Scenario.P2 (JStr "{{prospect_name}}, on price: ...")).
  - repeat constructor; discriminate.
  - reflexivity.
  - reflexivity.
Defined.

(** X2: when the template phase 4 finds has no ['template'], the phase
    raises [KeyError('template')]; the client is not called and the router
    is left as it was. *)
Theorem phase_4_missing_template rt self prompt_id session_context t p :
  all_have_id (prompts self) ->
  find (has_id prompt_id) (prompts self) = Some p ->
  dict_get p "template" = None ->
  phase_4_generator rt prompt_id session_context self t
  = (Raise (KeyError "template"), self, t).
Proof.
  intros Hids Hfind Htemplate.
  unfold phase_4_generator, bind, get, lift.
  rewrite (next_with_id_found _ Hids), Hfind.
  assert (Hid : exists v, dict_get p "id" = Some v).
  { apply find_some in Hfind. destruct Hfind as [_ Hhas].
    unfold has_id in Hhas. destruct (dict_get p "id") as [v | ]; [eauto | discriminate]. }
  destruct Hid as (v & Hid).
  rewrite (dict_get_truthy _ _ Hid). cbn [negb].
  unfold getitem. rewrite Htemplate. reflexivity.
Qed.

Lemma phase_4_missing_template_witness :
  phase_4_generator reference_runtime "P7" Scenario.sarah
    (Fixtures.draft_router (Scenario.answering "unused"))
    []
  = (Raise (KeyError "template"),
     Fixtures.draft_router (Scenario.answering "unused"),
     []).
Proof.
  apply (@phase_4_missing_template reference_runtime
           (Fixtures.draft_router (Scenario.answering "unused"))
           "P7" Scenario.sarah [] Fixtures.P7).
  - repeat constructor; discriminate.
  - reflexivity.
  - reflexivity.
Defined.

(* ================================================================== *)
(** ** What a phase costs and why it fails *)
(* ================================================================== *)


Lemma structured_answer_raise_inv rt A (c : Client) req cls
    (validate : json -> option A) (e : exn) :
  structured_answer rt c req cls validate = Raise e ->
  models_generate_content c req = Raise e
  \/ exists response,
       models_generate_content c req = Return response
       /\ e = ValidationError rt cls (text response)
       /\ (json_loads rt (text response) = None
           \/ exists doc, json_loads rt (text response) = Some doc
                          /\ validate doc = None).
Proof.
  unfold structured_answer, model_validate_json.
  destruct (models_generate_content c req) as [response | e'] eqn:Hc.
  - destruct (json_loads rt (text response)) as [doc | ] eqn:Hd.
    + destruct (validate doc) as [a | ] eqn:Hv; [discriminate | ].
      intros [= <-]. right. exists response. repeat split.
      right. exists doc. split; [exact Hd | exact Hv].
    + intros [= <-]. right. exists response. repeat split. left. exact Hd.
  - intros [= <-]. left. reflexivity.
Qed.

(** X4: phase 3 raises for two reasons only, and raises what it got: the
    exception of the Generation Client, unwrapped, or the validation error
    of an answer that is not JSON or does not have the three fields of a
    SpecialistDecision with their types. Either way the one request has
    been sent and the router is left as it was. *)
Theorem phase_3_failure_causes
    rt self user_query top_3_prompts session_context t e self' t' :
  phase_3_specialist rt user_query top_3_prompts session_context self t
    = (Raise e, self', t') ->
  let request := specialist_request rt user_query top_3_prompts session_context in
  self' = self
  /\ t' = (t ++ [GenerateContent request])%list
  /\ (models_generate_content (client self) request = Raise e
      \/ exists response,
           models_generate_content (client self) request = Return response
           /\ e = ValidationError rt "SpecialistDecision" (text response)
           /\ (json_loads rt (text response) = None
               \/ exists doc, json_loads rt (text response) = Some doc
                              /\ validate_SpecialistDecision doc = None)).
Proof.
  rewrite phase_3_specialist_run. intros [= Hanswer <- <-]. cbv zeta.
  split; [reflexivity | split; [reflexivity | ]].
  apply structured_answer_raise_inv, Hanswer.
Qed.

Lemma phase_3_failure_causes_witness :
  let request := specialist_request reference_runtime Scenario.ask
                   [Scenario.P1] Scenario.sarah in
  let self := Scenario.router (Scenario.answering "I would pick P1.") in
  self = self
  /\ [GenerateContent request] = ([] ++ [GenerateContent request])%list
  /\ (models_generate_content (client self) request
        = Raise (ValidationError reference_runtime "SpecialistDecision" "I would pick P1.")
      \/ exists response,
           models_generate_content (client self) request = Return response
           /\ ValidationError reference_runtime "SpecialistDecision" "I would pick P1."
              = ValidationError reference_runtime "SpecialistDecision" (text response)
           /\ (json_loads reference_runtime (text response) = None
               \/ exists doc, json_loads reference_runtime (text response) = Some doc
                              /\ validate_SpecialistDecision doc = None)).
Proof.
  apply (@phase_3_failure_causes reference_runtime
           (Scenario.router (Scenario.answering "I would pick P1."))
           Scenario.ask [Scenario.P1] Scenario.sarah []
           (ValidationError reference_runtime "SpecialistDecision" "I would pick P1.")).
  vm_compute. reflexivity.
Defined.



(** The filter phase 2 passes to the store keeps the templates whose
    category is one of those asked for. *)
Lemma satisfies_requested cats pt :
  satisfies (by_category cats) pt = in_requested cats (payload pt).
Proof.
  unfold satisfies, by_category, field_matches, in_requested. simpl.
  rewrite andb_true_r.
  destruct (dict_get (payload pt) "category") as [[ | | | | c | | ] | ];
    try reflexivity.
  destruct (in_dec string_dec c cats) as [Hin | Hout].
  - apply In_mem_str, Hin.
  - destruct (mem_str c cats) eqn:Hmem; [ | reflexivity].
    exfalso. apply Hout, mem_str_In, Hmem.
Qed.

(** X6: on a router whose collection exists and whose stored templates all
    have an ['id'], phase 2 returns as many templates as there are stored
    templates whose category, a string, is one of those asked for, up to
    three: three when three or more are, and all of them otherwise. *)
Theorem phase_2_search_length self user_query top_categories t pts :
  find_collection (collections (qdrant self)) (collection_name self) = Some pts ->
  Forall (fun p => dict_get (payload p) "id" <> None) pts ->
  exists top_3,
    fst (fst (phase_2_search user_query top_categories self t)) = Return top_3
    /\ length top_3
       = Nat.min 3 (length (filter (fun pt => in_requested top_categories (payload pt))
                                   pts)).
Proof.
  intros Hcoll Hids. rewrite phase_2_search_run, Hcoll. cbv zeta.
  destruct (retrieved_ids (qdrant self) user_query top_categories Hids) as (ids & ->).
  eexists. split; [reflexivity | ].
  unfold retrieved. cbv zeta.
  rewrite length_map, length_firstn.
  rewrite (Permutation_length (rank_perm _ _)).
  rewrite (filter_ext _ _ (satisfies_requested top_categories)). reflexivity.
Qed.

Lemma phase_2_search_length_witness :
  exists top_3,
    fst (fst (phase_2_search Scenario.ask ["Prospecting"]
                (Scenario.router (Scenario.answering EmptyString)) []))
      = Return top_3
    /\ length top_3
       = Nat.min 3 (length (filter (fun pt => in_requested ["Prospecting"] (payload pt))
                              [ {| point_id := 0; payload := Scenario.P1 |};
                                {| point_id := 1; payload := Scenario.P2 |} ])).
Proof.
  apply (@phase_2_search_length (Scenario.router (Scenario.answering EmptyString))
           Scenario.ask ["Prospecting"] []).
  - reflexivity.
  - repeat constructor; discriminate.
Defined.

(* ================================================================== *)
(** ** The HTTP surface: what a response can be handed on to *)
(* ================================================================== *)

(** A 200 is the value the [try] block of an accepted request returned. *)
Lemma serve_200_inv rt ep raw self t response self' t' :
  serve rt ep raw self t = (Return response, self', t') ->
  status response = 200 ->
  exists block,
    accepted rt ep raw = Some block
    /\ block self t = (Return (body response), self', t').
Proof.
  intros Hserve Hstatus.
  destruct (json_loads rt raw) as [v | ] eqn:Hv.
  - rewrite (serve_run rt ep raw self t Hv) in Hserve.
    destruct (accepted rt ep raw) as [block | ].
    + exists block. split; [reflexivity | ].
      unfold answer_of in Hserve.
      destruct (block self t) as [[[content | e] self1] t1].
      * destruct (renderable rt content); [ | discriminate Hserve].
        injection Hserve as <- <- <-. reflexivity.
      * injection Hserve as <- _ _. discriminate Hstatus.
    + injection Hserve as <- _ _. discriminate Hstatus.
  - rewrite (serve_undecoded rt ep raw self t Hv) in Hserve.
    injection Hserve as <- _ _.
    destruct (body_is_text rt raw); discriminate Hstatus.
Qed.

Lemma all_str_map l : all_str (map JStr l) = Some l.
Proof.
  induction l as [ | s rest IH]; simpl; [reflexivity | rewrite IH; reflexivity].
Qed.

Lemma all_dict_map l : all_dict (map JObj l) = Some l.
Proof.
  induction l as [ | d rest IH]; simpl; [reflexivity | rewrite IH; reflexivity].
Qed.



(** X8: the body of every 200 of [/api/phase2] is an array of at most
    three objects, the templates phase 2 returned, and it can be sent back
    as it is as the [top3] of a request to [/api/phase3]: with any query
    and any context of strings, the request model of phase 3 accepts it and
    reads the same templates. *)
Theorem phase2_response_feeds_phase3 rt raw self t response self' t' query context :
  serve rt Phase2 raw self t = (Return response, self', t') ->
  status response = 200 ->
  as_dict_str (JObj context) = Some context ->
  exists top_3,
    body response = JArr (map JObj top_3)
    /\ (length top_3 <= 3)%nat
    /\ Phase3Request.validate
         (JObj [("query", JStr query); ("top3", body response); ("context", JObj context)])
       = Some {| Phase3Request.query := query;
                 Phase3Request.top3 := top_3;
                 Phase3Request.context := context |}.
Proof.
  intros Hserve Hstatus Hcontext.
  destruct (@serve_200_inv rt Phase2 raw self t response self' t' Hserve Hstatus)
    as (block & Hacc & Hblock).
  unfold accepted in Hacc.
  destruct (json_loads rt raw) as [v | ]; [ | discriminate].
  destruct (Phase2Request.validate v) as [req | ]; [ | discriminate].
  injection Hacc as <-.
  unfold try_phase_2, bind, ret in Hblock.
  rewrite phase_2_search_run in Hblock.
  destruct (find_collection _ _) as [pts | ]; [ | discriminate].
  cbv zeta in Hblock.
  set (top_3 := retrieved _ _ _ _) in Hblock.
  destruct (getitems top_3 "id") as [ids | e]; [ | discriminate].
  assert (Hbody : body response = JArr (map JObj top_3)) by congruence.
  exists top_3. split; [exact Hbody | ]. split.
  - apply retrieved_length.
  - rewrite Hbody.
    unfold Phase3Request.validate, field. cbn [dict_get String.eqb Ascii.eqb Bool.eqb].
    cbn [as_str as_list_dict]. rewrite all_dict_map, Hcontext. reflexivity.
Qed.

Lemma phase2_response_feeds_phase3_witness :
  exists top_3,
    JArr [JObj Scenario.P1] = JArr (map JObj top_3)
    /\ (length top_3 <= 3)%nat
    /\ Phase3Request.validate
         (JObj [("query", JStr Scenario.ask);
                ("top3", JArr [JObj Scenario.P1]);
                ("context", JObj Scenario.sarah)])
       = Some {| Phase3Request.query := Scenario.ask;
                 Phase3Request.top3 := top_3;
                 Phase3Request.context := Scenario.sarah |}.
Proof.
  apply (@phase2_response_feeds_phase3 reference_runtime
           (Codec.dumps (JObj [("query", JStr Scenario.ask);
                               ("categories", JArr [JStr "Prospecting"])]))
           (Scenario.router (Scenario.answering EmptyString)) []
           {| status := 200; body := JArr [JObj Scenario.P1] |}
           (Scenario.router (Scenario.answering EmptyString))
           [QdrantQuery "prompts" Scenario.ask (by_category ["Prospecting"]) 3]
           Scenario.ask Scenario.sarah).
  - vm_compute. reflexivity.
  - reflexivity.
  - reflexivity.
Defined.

(** X9: every 200 of [/api/phase1] answers a request whose body the
    request model accepted and on whose [query] phase 1 returned a
    decision; the body of the response has the two fields of that very
    decision and validates as it; its [categories], sent back as they are
    with any query, make a request that the request model of [/api/phase2]
    accepts and reads as the same list. *)
Theorem phase1_response_feeds_phase2 rt raw self t response self' t' query :
  serve rt Phase1 raw self t = (Return response, self', t') ->
  status response = 200 ->
  exists v req d,
    json_loads rt raw = Some v
    /\ Phase1Request.validate v = Some req
    /\ phase_1_dispatcher rt (Phase1Request.query req) self t = (Return d, self', t')
    /\ body response = JObj [("categories", JArr (map JStr (categories d)));
                             ("reasoning", JStr (reasoning d))]
    /\ validate_DispatcherDecision (body response) = Some d
    /\ Phase2Request.validate
         (JObj [("query", JStr query);
                ("categories", JArr (map JStr (categories d)))])
       = Some {| Phase2Request.query := query;
                 Phase2Request.categories := categories d |}.
Proof.
  intros Hserve Hstatus.
  destruct (@serve_200_inv rt Phase1 raw self t response self' t' Hserve Hstatus)
    as (block & Hacc & Hblock).
  unfold accepted in Hacc.
  destruct (json_loads rt raw) as [v | ] eqn:Hv; [ | discriminate].
  destruct (Phase1Request.validate v) as [req | ] eqn:Hreq; [ | discriminate].
  injection Hacc as <-.
  unfold try_phase_1, bind, ret in Hblock.
  destruct (phase_1_dispatcher rt (Phase1Request.query req) self t)
    as [[[d | e] self1] t1] eqn:Hrun; [ | discriminate].
  assert (Hbody : body response
                  = JObj [("categories", JArr (map JStr (categories d)));
                          ("reasoning", JStr (reasoning d))]) by congruence.
  assert (Hself : self1 = self') by congruence.
  assert (Ht : t1 = t') by congruence.
  subst self1 t1.
  exists v, req, d.
  split; [reflexivity | split; [exact Hreq | split; [exact Hrun | ]]].
  split; [exact Hbody | ]. split.
  - rewrite Hbody.
    unfold validate_DispatcherDecision, field.
    cbn [dict_get String.eqb Ascii.eqb Bool.eqb as_str as_list_str].
    rewrite all_str_map. destruct d; reflexivity.
  - unfold Phase2Request.validate, field.
    cbn [dict_get String.eqb Ascii.eqb Bool.eqb as_str as_list_str].
    rewrite all_str_map. reflexivity.
Qed.

Lemma phase1_response_feeds_phase2_witness :
  exists v req d,
    json_loads reference_runtime (Codec.dumps (JObj [("query", JStr Scenario.ask)]))
      = Some v
    /\ Phase1Request.validate v = Some req
    /\ phase_1_dispatcher reference_runtime (Phase1Request.query req)
         (Scenario.router (Scenario.answering
            (Scenario.dispatcher_says ["Prospecting"; "Objection Handling"] "an opener")))
         []
       = (Return d,
          Scenario.router (Scenario.answering
            (Scenario.dispatcher_says ["Prospecting"; "Objection Handling"] "an opener")),
          [GenerateContent (dispatcher_request reference_runtime
                              Scenario.summary Scenario.ask)])
    /\ JObj [("categories", JArr [JStr "Prospecting"; JStr "Objection Handling"]);
             ("reasoning", JStr "an opener")]
       = JObj [("categories", JArr (map JStr (categories d)));
               ("reasoning", JStr (reasoning d))]
    /\ validate_DispatcherDecision
         (JObj [("categories", JArr [JStr "Prospecting"; JStr "Objection Handling"]);
                ("reasoning", JStr "an opener")])
       = Some d
    /\ Phase2Request.validate
         (JObj [("query", JStr Scenario.ask);
                ("categories", JArr (map JStr (categories d)))])
       = Some {| Phase2Request.query := Scenario.ask;
                 Phase2Request.categories := categories d |}.
Proof.
  apply (@phase1_response_feeds_phase2 reference_runtime
           (Codec.dumps (JObj [("query", JStr Scenario.ask)]))
           (Scenario.router (Scenario.answering
              (Scenario.dispatcher_says ["Prospecting"; "Objection Handling"] "an opener")))
           []
           {| status := 200;
              body := JObj [("categories",
                             JArr [JStr "Prospecting"; JStr "Objection Handling"]);
                            ("reasoning", JStr "an opener")] |}
           (Scenario.router (Scenario.answering
              (Scenario.dispatcher_says ["Prospecting"; "Objection Handling"] "an opener")))
           [GenerateContent (dispatcher_request reference_runtime
                               Scenario.summary Scenario.ask)]
           Scenario.ask).
  - vm_compute. reflexivity.
  - reflexivity.
Defined.

(** X10: the body of every 200 of [/api/phase3], the [prompt] field set
    aside, validates as the decision phase 3 returned: what the client of
    the API reads is what the model answered. *)
Theorem phase3_response_is_decision rt raw self t response self' t' :
  serve rt Phase3 raw self t = (Return response, self', t') ->
  status response = 200 ->
  exists v req d,
    json_loads rt raw = Some v
    /\ Phase3Request.validate v = Some req
    /\ phase_3_specialist rt (Phase3Request.query req) (Phase3Request.top3 req)
         (Phase3Request.context req) self t = (Return d, self', t')
    /\ validate_SpecialistDecision (body response) = Some d.
Proof.
  intros Hserve Hstatus.
  destruct (@serve_200_inv rt Phase3 raw self t response self' t' Hserve Hstatus)
    as (block & Hacc & Hblock).
  unfold accepted in Hacc.
  destruct (json_loads rt raw) as [v | ] eqn:Hv; [ | discriminate].
  destruct (Phase3Request.validate v) as [req | ] eqn:Hreq; [ | discriminate].
  injection Hacc as <-.
  assert (Hop : api_phase_3 rt req self t = (Return (Respond (body response)), self', t')).
  { unfold api_phase_3, guarded, try_except, bind, ret. rewrite Hblock. reflexivity. }
  destruct (api_phase_3_content _ _ _ _ Hop) as (d & Hrun & Hcontent).
  exists v, req, d.
  split; [reflexivity | split; [exact Hreq | split; [exact Hrun | ]]].
  rewrite Hcontent.
  unfold validate_SpecialistDecision, field.
  cbn [dict_get String.eqb Ascii.eqb Bool.eqb as_str as_list_str].
  rewrite all_str_map. destruct d; reflexivity.
Qed.

Lemma phase3_response_is_decision_witness :
  exists v req d,
    json_loads reference_runtime Scenario.phase3_body = Some v
    /\ Phase3Request.validate v = Some req
    /\ phase_3_specialist reference_runtime
         (Phase3Request.query req) (Phase3Request.top3 req) (Phase3Request.context req)
         (Scenario.router (Scenario.answering
            (Scenario.specialist_says "P1" ["company"] "Which company?")))
         []
       = (Return d,
          Scenario.router (Scenario.answering
            (Scenario.specialist_says "P1" ["company"] "Which company?")),
          [GenerateContent (specialist_request reference_runtime Scenario.ask
                              [Scenario.P1; Scenario.P2] Scenario.sarah)])
    /\ validate_SpecialistDecision
         (JObj [("selected_prompt_id", JStr "P1");
                ("missing_variables", JArr [JStr "company"]);
                ("clarifying_question", JStr "Which company?");
                ("prompt", JObj Scenario.P1)])
       = Some d.
Proof.
  apply (@phase3_response_is_decision reference_runtime Scenario.phase3_body
           (Scenario.router (Scenario.answering
              (Scenario.specialist_says "P1" ["company"] "Which company?")))
           []
           {| status := 200;
              body := JObj [("selected_prompt_id", JStr "P1");
                            ("missing_variables", JArr [JStr "company"]);
                            ("clarifying_question", JStr "Which company?");
                            ("prompt", JObj Scenario.P1)] |}).
  - vm_compute. reflexivity.
  - reflexivity.
Defined.

(* ================================================================== *)
(** ** The HTTP surface: what is turned away, what is left behind *)
(* ================================================================== *)

Lemma as_dict_str_rejects ctx :
  Exists not_a_string ctx -> as_dict_str (JObj ctx) = None.
Proof.
  intros Hex. unfold as_dict_str.
  destruct (forallb _ ctx) eqn:Hall; [ | reflexivity].
  exfalso. apply Exists_exists in Hex. destruct Hex as (kv & Hin & Hnot).
  rewrite forallb_forall in Hall. specialize (Hall kv Hin).
  destruct (snd kv) eqn:Hkv; try discriminate. exact (Hnot s Hkv).
Qed.

(** X11: a request to [/api/phase3] or [/api/phase4] whose [context] holds
    a value that is not a string, a nested object for one, is answered 422:
    the phase is not run, no call is made and the router is left as it
    was. The API takes flat contexts of strings only. *)
Theorem context_of_non_strings_rejected rt ep raw d ctx self t :
  ep = Phase3 \/ ep = Phase4 ->
  json_loads rt raw = Some (JObj d) ->
  dict_get d "context" = Some (JObj ctx) ->
  Exists not_a_string ctx ->
  serve rt ep raw self t
  = (Return {| status := 422;
               body := detail_body (request_validation_errors rt (model_of ep) raw) |},
     self, t).
Proof.
  intros Hep Hraw Hctx Hex.
  rewrite (serve_run rt ep raw self t Hraw). unfold accepted. rewrite Hraw.
  assert (Hfield : field d "context" as_dict_str = None).
  { unfold field. rewrite Hctx. apply as_dict_str_rejects, Hex. }
  destruct Hep as [-> | ->]; cbn [option_map].
  - unfold Phase3Request.validate. rewrite Hfield.
    destruct (field d "query" as_str); [ | reflexivity].
    destruct (field d "top3" as_list_dict); reflexivity.
  - unfold Phase4Request.validate. rewrite Hfield.
    destruct (field d "promptId" as_str); reflexivity.
Qed.

Lemma context_of_non_strings_rejected_witness :
  serve reference_runtime Phase4
    (Codec.dumps (JObj [("promptId", JStr "P1"); ("context", JObj mock_context)]))
    (Scenario.router (Scenario.answering "unused")) []
  = (Return {| status := 422;
               body := detail_body
                         (request_validation_errors reference_runtime (model_of Phase4)
                            (Codec.dumps (JObj [("promptId", JStr "P1");
                                                ("context", JObj mock_context)]))) |},
     Scenario.router (Scenario.answering "unused"), []).
Proof.
  apply (@context_of_non_strings_rejected reference_runtime Phase4 _
           [("promptId", JStr "P1"); ("context", JObj mock_context)] mock_context).
  - right. reflexivity.
  - vm_compute. reflexivity.
  - reflexivity.
  - apply Exists_cons_hd. intros s. discriminate.
Defined.

Lemma framed_once_bind_ret A B (c : Py A) (f : A -> B) self :
  framed_once c self -> framed_once (x <- c ;; ret (f x)) self.
Proof.
  intros (result & calls & Hlen & Hc).
  exists (match result with Return a => Return (f a) | Raise e => Raise e end), calls.
  split; [exact Hlen | ].
  intros t. unfold bind, ret. rewrite Hc. destruct result; reflexivity.
Qed.

Lemma phase_4_generator_framed_once rt prompt_id session_context self :
  framed_once (phase_4_generator rt prompt_id session_context) self.
Proof.
  unfold framed_once, phase_4_generator, generate_content, bind, get, lift, emit, ret.
  destruct (next_with_id (prompts self) prompt_id) as [[p | ] | e].
  - destruct (negb (dict_truthy p)).
    + exists (Return not_found), []. split; [simpl; lia | ].
      intros t. rewrite app_nil_r. reflexivity.
    + destruct (getitem p "template") as [template | e].
      * match goal with
        | |- context [models_generate_content (client self) ?r] =>
            destruct (models_generate_content (client self) r) as [response | e];
            [ exists (Return (text response)), [GenerateContent r]
            | exists (Raise e), [GenerateContent r] ];
            (split; [simpl; lia | intros t; reflexivity])
        end.
      * exists (Raise e), []. split; [simpl; lia | ].
        intros t. rewrite app_nil_r. reflexivity.
  - exists (Return not_found), []. split; [simpl; lia | ].
    intros t. rewrite app_nil_r. reflexivity.
  - exists (Raise e), []. split; [simpl; lia | ].
    intros t. rewrite app_nil_r. reflexivity.
Qed.

Lemma try_phase_3_framed_once rt req self : framed_once (try_phase_3 rt req) self.
Proof.
  unfold framed_once, try_phase_3, bind.
  destruct (structured_answer rt (client self)
              (specialist_request rt (Phase3Request.query req) (Phase3Request.top3 req)
                 (Phase3Request.context req))
              "SpecialistDecision" validate_SpecialistDecision) as [d | e] eqn:Hanswer.
  - destruct (negb (String.eqb (selected_prompt_id d) "NONE")) eqn:Hsel.
    + destruct (next_with_id (Phase3Request.top3 req) (selected_prompt_id d))
        as [prompt | e] eqn:Hnext;
        eexists; eexists; (split; [ | intros t; rewrite phase_3_specialist_run, Hanswer, Hsel;
                                      unfold lift, ret; rewrite Hnext; reflexivity ]);
        simpl; lia.
    + eexists. eexists.
      split; [ | intros t; rewrite phase_3_specialist_run, Hanswer, Hsel; reflexivity ].
      simpl. lia.
  - eexists. eexists.
    split; [ | intros t; rewrite phase_3_specialist_run, Hanswer; reflexivity ].
    simpl. lia.
Qed.

Lemma accepted_framed_once rt ep raw block self :
  accepted rt ep raw = Some block -> framed_once block self.
Proof.
  unfold accepted.
  destruct (json_loads rt raw) as [v | ]; [ | discriminate].
  destruct ep; cbn [option_map].
  - destruct (Phase1Request.validate v) as [req | ]; [ | discriminate].
    intros [= <-]. apply framed_once_bind_ret.
    eexists. eexists. split; [ | intros t; apply phase_1_dispatcher_run]. simpl. lia.
  - destruct (Phase2Request.validate v) as [req | ]; [ | discriminate].
    intros [= <-]. apply framed_once_bind_ret.
    eexists. eexists. split; [ | intros t; apply phase_2_search_run]. simpl. lia.
  - destruct (Phase3Request.validate v) as [req | ]; [ | discriminate].
    intros [= <-]. apply try_phase_3_framed_once.
  - destruct (Phase4Request.validate v) as [req | ]; [ | discriminate].
    intros [= <-]. apply framed_once_bind_ret, phase_4_generator_framed_once.
Qed.

(** X12: a request to any of the four endpoints, whatever its body, leaves
    the router as it was and makes one call to a collaborator at most, a
    generation request or a query of the store, whether the request is
    answered or the rendering of what the path operation returned
    raises. *)
Theorem serve_keeps_router rt ep raw self t :
  exists result calls,
    (length calls <= 1)%nat
    /\ serve rt ep raw self t = (result, self, (t ++ calls)%list).
Proof.
  destruct (json_loads rt raw) as [v | ] eqn:Hv.
  - rewrite (serve_run rt ep raw self t Hv).
    destruct (accepted rt ep raw) as [block | ] eqn:Hacc.
    + destruct (accepted_framed_once _ _ _ self Hacc)
        as (result & calls & Hlen & Hblock).
      unfold answer_of. rewrite Hblock.
      destruct result as [content | e];
        [destruct (renderable rt content) | ];
        eexists; exists calls; (split; [exact Hlen | reflexivity]).
    + eexists. exists []. split; [simpl; lia | ].
      rewrite app_nil_r. reflexivity.
  - rewrite (serve_undecoded rt ep raw self t Hv).
    eexists. exists []. split; [simpl; lia | ].
    rewrite app_nil_r. reflexivity.
Qed.

(* ================================================================== *)
(** ** Building the index *)
(* ================================================================== *)

Section VectorDbFacts.
Variable rt : PyRuntime.
Variable lib : QdrantLocal.

(** The router once the store is opened and configured. *)
Lemma init_vector_db_run self t :
  init_vector_db rt lib self t =
  match open_path lib (path_join (base_dir self) "local_qdrant") with
  | Raise e => (Raise e, self, t)
  | Return opened =>
      match set_model lib opened "BAAI/bge-small-en-v1.5" with
      | Raise e => (Raise e, with_qdrant self opened, t)
      | Return dense =>
          let '(db, flag) :=
            match set_sparse_model lib dense "Qdrant/bm25" with
            | Return both => (both, true)
            | Raise _ => (dense, false)
            end in
          let ready :=
            with_collection_name (with_use_sparse (with_qdrant self db) flag) "prompts" in
          if collection_exists db "prompts" then (Return tt, ready, t)
          else
            match index_prompts rt 0 (prompts self) [] [] [] with
            | Raise e => (Raise e, ready, t)
            | Return (documents, metadata_list, ids) =>
                (Return tt,
                 with_qdrant ready (qdrant_add db "prompts" documents metadata_list ids),
                 t)
            end
      end
  end.
Proof.
  unfold init_vector_db, assign, try_except, bind, get, put, lift, ret. cbv zeta.
  destruct (open_path lib _) as [opened | e]; [ | reflexivity].
  cbn [qdrant with_qdrant with_use_sparse with_collection_name collection_name prompts].
  destruct (set_model lib _ _) as [dense | e]; [ | reflexivity].
  destruct (set_sparse_model lib dense _) as [both | e0];
    cbn [qdrant with_qdrant with_use_sparse with_collection_name collection_name prompts negb].
  - destruct (collection_exists both "prompts"); cbn [negb]; [reflexivity | ].
    destruct (index_prompts rt 0 (prompts self) [] [] []) as [[[docs metas] ids] | e1];
      reflexivity.
  - destruct (collection_exists dense "prompts"); cbn [negb]; [reflexivity | ].
    destruct (index_prompts rt 0 (prompts self) [] [] []) as [[[docs metas] ids] | e1];
      reflexivity.
Qed.
End VectorDbFacts.

Lemma find_set_collection cs name pts :
  find_collection (set_collection cs name pts) name = Some pts.
Proof.
  induction cs as [ | [n old] rest IH]; simpl.
  - rewrite String.eqb_refl. reflexivity.
  - destruct (String.eqb n name) eqn:Hn; simpl; rewrite Hn; [reflexivity | exact IH].
Qed.

Lemma upsert_new pts p :
  ~ In (point_id p) (map point_id pts) -> upsert pts p = (pts ++ [p])%list.
Proof.
  induction pts as [ | q rest IH]; simpl; intros Hnew; [reflexivity | ].
  destruct (point_id q =? point_id p) eqn:Hq.
  - apply Z.eqb_eq in Hq. exfalso. apply Hnew. left. exact Hq.
  - rewrite IH; [reflexivity | ]. intros Hin. apply Hnew. right. exact Hin.
Qed.

Lemma fold_upsert_new new : forall old,
  NoDup (map point_id (old ++ new)) ->
  fold_left upsert new old = (old ++ new)%list.
Proof.
  induction new as [ | p rest IH]; intros old Hnodup; simpl.
  - rewrite app_nil_r. reflexivity.
  - rewrite upsert_new.
    + rewrite IH; rewrite <- app_assoc; [reflexivity | exact Hnodup].
    + rewrite map_app in Hnodup. simpl in Hnodup.
      apply NoDup_remove_2 in Hnodup.
      intros Hin. apply Hnodup, in_or_app. left. exact Hin.
Qed.

Lemma zip_points_ids ids : forall metas docs,
  length metas = length ids -> length docs = length ids ->
  map point_id (zip_points ids metas docs) = ids.
Proof.
  induction ids as [ | i rest IH]; intros [ | m metas] [ | d docs]; simpl;
    try discriminate; try reflexivity.
  intros [= Hm] [= Hd]. rewrite IH; auto.
Qed.

Lemma zip_points_hold ids : forall metas docs,
  length metas = length ids -> length docs = length ids ->
  Forall2 holds_prompt (zip_points ids metas docs) metas.
Proof.
  induction ids as [ | i rest IH]; intros [ | m metas] [ | d docs]; simpl;
    try discriminate; try constructor.
  - intros k Hk. simpl. apply document_payload_get, Hk.
  - apply IH; congruence.
Qed.

Lemma enumerated_NoDup n : NoDup (enumerated n).
Proof.
  unfold enumerated. apply Finite.Injective_map_NoDup.
  - intros a b Hab. apply Nat2Z.inj, Hab.
  - apply seq_NoDup.
Qed.

Section IndexFacts.
Variable rt : PyRuntime.

Lemma doc_text_returns p : has_metadata p -> exists text_, doc_text rt p = Return text_.
Proof.
  intros (m & Hm). unfold doc_text, getitem. rewrite Hm. simpl. eauto.
Qed.

Lemma doc_text_raises p e :
  doc_text rt p = Raise e ->
  ~ has_metadata p /\ (exn_class e = "KeyError" \/ exn_class e = "AttributeError").
Proof.
  unfold doc_text, getitem, has_metadata.
  destruct (dict_get p "metadata") as [m | ] eqn:Hm.
  - destruct m; simpl; try discriminate;
      intros [= <-]; (split; [intros (m' & Hm'); discriminate Hm' | right; reflexivity]).
  - intros [= <-]. split; [intros (m' & Hm'); discriminate Hm' | left; reflexivity].
Qed.

(** The loop on prompts that all have their metadata. *)
Lemma index_prompts_returns ps : forall idx documents metadata_list ids,
  Forall has_metadata ps ->
  exists texts,
    length texts = length ps
    /\ index_prompts rt idx ps documents metadata_list ids
       = Return ((documents ++ texts)%list,
                 (metadata_list ++ ps)%list,
                 (ids ++ map (fun i => idx + Z.of_nat i) (seq 0 (length ps)))%list).
Proof.
  induction ps as [ | p rest IH]; intros idx documents metadata_list ids Hall.
  - exists []. simpl. rewrite !app_nil_r. split; reflexivity.
  - inversion Hall as [ | p' rest' Hp Hrest]; subst.
    destruct (doc_text_returns Hp) as (text_ & Htext).
    destruct (IH (idx + 1) (documents ++ [text_])%list (metadata_list ++ [p])%list
                 (ids ++ [idx])%list Hrest) as (texts & Hlen & Hrun).
    exists (text_ :: texts). split; [simpl; congruence | ].
    cbn [index_prompts]. rewrite Htext, Hrun.
    rewrite <- !app_assoc. cbn [app length seq map].
    rewrite Z.add_0_r. rewrite <- seq_shift, map_map.
    erewrite map_ext; [reflexivity | ].
    intros i. cbv beta. lia.
Qed.

(** The loop on prompts one of which has no metadata, or has one that is
    not a dict. *)
Lemma index_prompts_raises ps : forall idx documents metadata_list ids,
  Exists (fun p => ~ has_metadata p) ps ->
  exists e,
    index_prompts rt idx ps documents metadata_list ids = Raise e
    /\ (exn_class e = "KeyError" \/ exn_class e = "AttributeError").
Proof.
  induction ps as [ | p rest IH]; intros idx documents metadata_list ids Hex.
  - inversion Hex.
  - cbn [index_prompts].
    destruct (doc_text rt p) as [text_ | e] eqn:Htext.
    + apply IH. inversion Hex as [p' rest' Hp | p' rest' Hrest]; subst; [ | exact Hrest].
      exfalso. apply Hp.
      unfold doc_text, getitem in Htext. unfold has_metadata.
      destruct (dict_get p "metadata") as [m | ]; [ | discriminate].
      destruct m; try discriminate. eauto.
    + exists e. split; [reflexivity | ]. apply (doc_text_raises _ Htext).
Qed.
End IndexFacts.

(** X13: when [init_vector_db] returns, the router's collection is
    "prompts" and the store has it, so that phase 2 from then on does not
    fail for want of the collection: on every query and category list it
    returns, or it raises [KeyError('id')] where it prints the ids of the
    hits; the corpus, the category summary and the client are the ones the
    router had, and no call to the Generation Client or query of the store
    was made. *)
Theorem init_vector_db_collection_exists rt lib self t self' t' :
  init_vector_db rt lib self t = (Return tt, self', t') ->
  collection_name self' = "prompts"
  /\ collection_exists (qdrant self') "prompts" = true
  /\ (forall user_query top_categories t0,
        (exists top_3,
           fst (fst (phase_2_search user_query top_categories self' t0)) = Return top_3)
        \/ fst (fst (phase_2_search user_query top_categories self' t0))
           = Raise (KeyError "id"))
  /\ prompts self' = prompts self
  /\ category_summary self' = category_summary self
  /\ client self' = client self
  /\ t' = t.
Proof.
  rewrite init_vector_db_run. cbv zeta. intros Hinit.
  assert (Hready : collection_name self' = "prompts"
                   /\ collection_exists (qdrant self') "prompts" = true
                   /\ prompts self' = prompts self
                   /\ category_summary self' = category_summary self
                   /\ client self' = client self
                   /\ t' = t).
  { destruct (open_path lib _) as [opened | e]; [ | discriminate].
    destruct (set_model lib _ _) as [dense | e]; [ | discriminate].
    destruct (set_sparse_model lib dense _) as [both | e].
    - destruct (collection_exists both "prompts") eqn:Hex.
      + injection Hinit as <- <-.
        cbn [collection_name qdrant prompts category_summary client
             with_qdrant with_use_sparse with_collection_name].
        repeat split. exact Hex.
      + destruct (index_prompts rt 0 (prompts self) [] [] []) as [[[docs metas] ids] | e];
          [ | discriminate].
        injection Hinit as <- <-.
        cbn [collection_name qdrant prompts category_summary client
             with_qdrant with_use_sparse with_collection_name].
        repeat split.
        unfold collection_exists, qdrant_add. cbn [collections].
        rewrite find_set_collection. reflexivity.
    - destruct (collection_exists dense "prompts") eqn:Hex.
      + injection Hinit as <- <-.
        cbn [collection_name qdrant prompts category_summary client
             with_qdrant with_use_sparse with_collection_name].
        repeat split. exact Hex.
      + destruct (index_prompts rt 0 (prompts self) [] [] []) as [[[docs metas] ids] | e'];
          [ | discriminate].
        injection Hinit as <- <-.
        cbn [collection_name qdrant prompts category_summary client
             with_qdrant with_use_sparse with_collection_name].
        repeat split.
        unfold collection_exists, qdrant_add. cbn [collections].
        rewrite find_set_collection. reflexivity. }
  destruct Hready as (Hname & Hex & Hprompts & Hsummary & Hclient & Ht).
  repeat split; try assumption.
  intros user_query top_categories t0.
  rewrite phase_2_search_run, Hname.
  unfold collection_exists in Hex.
  destruct (find_collection (collections (qdrant self')) "prompts") as [pts | ];
    [ | discriminate].
  cbv zeta. cbn [fst].
  destruct (getitems (retrieved (qdrant self') user_query top_categories pts) "id")
    as [ids | e] eqn:Hids.
  - left. eexists. reflexivity.
  - right. destruct (getitems_raises _ _ Hids) as [-> _]. reflexivity.
Qed.

Lemma init_vector_db_collection_exists_witness :
  exists self',
    init_vector_db reference_runtime (Fixtures.local_store [] false)
      (Fixtures.loaded_router [Scenario.P1; Scenario.P2]) []
    = (Return tt, self', [])
    /\ collection_name self' = "prompts"
    /\ collection_exists (qdrant self') "prompts" = true
    /\ fst (fst (phase_2_search Scenario.ask ["Prospecting"] self' []))
       = Return [document_payload
                   "Category: Prospecting - Situation: First contact - Task: Write an opener"
                   Scenario.P1].
Proof.
  eexists. split; [vm_compute; reflexivity | ].
  match goal with
  | |- collection_name ?s = _ /\ _ =>
      destruct (@init_vector_db_collection_exists reference_runtime
                  (Fixtures.local_store [] false)
                  (Fixtures.loaded_router [Scenario.P1; Scenario.P2]) [] s [])
        as (Hname & Hex & _)
  end.
  - vm_compute. reflexivity.
  - split; [exact Hname | split; [exact Hex | vm_compute; reflexivity]].
Defined.

(** X14: the index is built once. When the store that is opened already
    has the collection "prompts", [init_vector_db] returns with that store
    as it is, whatever the corpus of the router holds: no prompt is read,
    none is added, and a corpus that has changed since the build is not
    indexed again. *)
Theorem init_vector_db_builds_once rt lib self t db flag :
  configured lib (path_join (base_dir self) "local_qdrant") = Some (db, flag) ->
  collection_exists db "prompts" = true ->
  init_vector_db rt lib self t
  = (Return tt,
     with_collection_name (with_use_sparse (with_qdrant self db) flag) "prompts",
     t).
Proof.
  unfold configured. intros Hconf Hex.
  rewrite init_vector_db_run. cbv zeta.
  destruct (open_path lib _) as [opened | e]; [ | discriminate].
  destruct (set_model lib _ _) as [dense | e]; [ | discriminate].
  destruct (set_sparse_model lib dense _) as [both | e];
    injection Hconf as <- <-; rewrite Hex; reflexivity.
Qed.

Lemma init_vector_db_builds_once_witness :
  init_vector_db reference_runtime
    (Fixtures.local_store [("prompts", [ {| point_id := 0; payload := Scenario.P2 |} ])] true)
    (Fixtures.loaded_router [Scenario.P1; Fixtures.P7]) []
  = (Return tt,
     with_collection_name
       (with_use_sparse
          (with_qdrant (Fixtures.loaded_router [Scenario.P1; Fixtures.P7])
             {| collections := [("prompts", [ {| point_id := 0; payload := Scenario.P2 |} ])];
                relevance := fun _ _ p => point_id p |})
          true)
       "prompts",
     []).
Proof.
  apply (@init_vector_db_builds_once reference_runtime
           (Fixtures.local_store
              [("prompts", [ {| point_id := 0; payload := Scenario.P2 |} ])] true)
           (Fixtures.loaded_router [Scenario.P1; Fixtures.P7]) []).
  - reflexivity.
  - reflexivity.
Defined.

(** X15: a first build indexes the whole corpus. When the store that is
    opened has no collection "prompts" and every prompt has a dict as its
    ['metadata'], [init_vector_db] returns and the collection then holds
    one point per prompt, in the order of the corpus and with the ids 0, 1,
    2, ...; each point holds its prompt, field for field. [use_sparse]
    tells whether the sparse model could be set. *)
Theorem init_vector_db_fresh_build rt lib self t db flag :
  configured lib (path_join (base_dir self) "local_qdrant") = Some (db, flag) ->
  collection_exists db "prompts" = false ->
  Forall has_metadata (prompts self) ->
  exists self',
    init_vector_db rt lib self t = (Return tt, self', t)
    /\ index_of_corpus self'
    /\ prompts self' = prompts self
    /\ use_sparse self' = flag.
Proof.
  unfold configured. intros Hconf Habsent Hmeta.
  rewrite init_vector_db_run. cbv zeta.
  destruct (index_prompts_returns rt 0 [] [] [] Hmeta) as (texts & Hlen & Hloop).
  assert (Hbuilt : forall ready,
            qdrant ready = db -> collection_name ready = "prompts" ->
            prompts ready = prompts self ->
            index_of_corpus
              (with_qdrant ready
                 (qdrant_add db "prompts" texts (prompts self)
                    (map (fun i => 0 + Z.of_nat i) (seq 0 (length (prompts self))))))).
  { intros ready Hdb Hname Hprompts.
    unfold index_of_corpus.
    cbn [qdrant collection_name prompts with_qdrant]. rewrite Hname, Hprompts.
    unfold qdrant_add. cbn [collections]. rewrite find_set_collection.
    unfold collection_exists in Habsent.
    destruct (find_collection (collections db) "prompts"); [discriminate | ].
    eexists. split; [reflexivity | ].
    assert (Hids : map (fun i => 0 + Z.of_nat i) (seq 0 (length (prompts self)))
                   = enumerated (length (prompts self))).
    { unfold enumerated. apply map_ext. intros i. lia. }
    rewrite Hids.
    assert (Hl : length (enumerated (length (prompts self))) = length (prompts self)).
    { unfold enumerated. rewrite length_map, length_seq. reflexivity. }
    rewrite fold_upsert_new.
    - cbn [app]. split.
      + apply zip_points_ids; congruence.
      + apply zip_points_hold; congruence.
    - cbn [app]. rewrite zip_points_ids by congruence. apply enumerated_NoDup. }
  destruct (open_path lib _) as [opened | e]; [ | discriminate].
  destruct (set_model lib _ _) as [dense | e]; [ | discriminate].
  destruct (set_sparse_model lib dense _) as [both | e];
    injection Hconf as <- <-; rewrite Habsent, Hloop; cbn [app];
    eexists; (split; [reflexivity | split; [ | split; reflexivity]]);
    apply Hbuilt; reflexivity.
Qed.

Lemma init_vector_db_fresh_build_witness :
  exists self',
    init_vector_db reference_runtime (Fixtures.local_store [] false)
      (Fixtures.loaded_router [Scenario.P1; Scenario.P2]) []
    = (Return tt, self', [])
    /\ index_of_corpus self'
    /\ prompts self' = [Scenario.P1; Scenario.P2]
    /\ use_sparse self' = false.
Proof.
  apply (@init_vector_db_fresh_build reference_runtime (Fixtures.local_store [] false)
           (Fixtures.loaded_router [Scenario.P1; Scenario.P2]) []
           {| collections := []; relevance := fun _ _ p => point_id p |} false).
  - reflexivity.
  - reflexivity.
  - repeat constructor; eexists; reflexivity.
Defined.

(** X16: a first build is all or nothing. When the store that is opened
    has no collection "prompts" and some prompt has no ['metadata'], or has
    one that is not a dict, [init_vector_db] raises a [KeyError] or an
    [AttributeError] and nothing has been added: the store still has no
    such collection. *)
Theorem init_vector_db_all_or_nothing rt lib self t db flag :
  configured lib (path_join (base_dir self) "local_qdrant") = Some (db, flag) ->
  collection_exists db "prompts" = false ->
  Exists (fun p => ~ has_metadata p) (prompts self) ->
  exists e self',
    init_vector_db rt lib self t = (Raise e, self', t)
    /\ (exn_class e = "KeyError" \/ exn_class e = "AttributeError")
    /\ qdrant self' = db
    /\ collection_exists (qdrant self') "prompts" = false.
Proof.
  unfold configured. intros Hconf Habsent Hbad.
  rewrite init_vector_db_run. cbv zeta.
  destruct (index_prompts_raises rt 0 [] [] [] Hbad) as (e & Hloop & Hclass).
  destruct (open_path lib _) as [opened | e0]; [ | discriminate].
  destruct (set_model lib _ _) as [dense | e0]; [ | discriminate].
  destruct (set_sparse_model lib dense _) as [both | e0];
    injection Hconf as <- <-; rewrite Habsent, Hloop;
    exists e; eexists; (split; [reflexivity | split; [exact Hclass | split]]);
    [reflexivity | exact Habsent | reflexivity | exact Habsent].
Qed.

Lemma init_vector_db_all_or_nothing_witness :
  exists e self',
    init_vector_db reference_runtime (Fixtures.local_store [] true)
      (Fixtures.loaded_router [Scenario.P1; Fixtures.P7]) []
    = (Raise e, self', [])
    /\ (exn_class e = "KeyError" \/ exn_class e = "AttributeError")
    /\ qdrant self' = {| collections := []; relevance := fun _ _ p => point_id p |}
    /\ collection_exists (qdrant self') "prompts" = false.
Proof.
  apply (@init_vector_db_all_or_nothing reference_runtime (Fixtures.local_store [] true)
           (Fixtures.loaded_router [Scenario.P1; Fixtures.P7]) []
           {| collections := []; relevance := fun _ _ p => point_id p |} true).
  - reflexivity.
  - reflexivity.
  - apply Exists_cons_tl, Exists_cons_hd.
    intros (m & Hm). discriminate Hm.
Defined.

Lemma Forall2_In_left A B (R : A -> B -> Prop) l1 l2 x :
  Forall2 R l1 l2 -> In x l1 -> exists y, In y l2 /\ R x y.
Proof.
  induction 1 as [ | a b l1 l2 Hab _ IH]; intros Hin; [inversion Hin | ].
  destruct Hin as [<- | Hin].
  - exists b. split; [left; reflexivity | exact Hab].
  - destruct (IH Hin) as (y & Hy & Hxy). exists y. split; [right; exact Hy | exact Hxy].
Qed.

(** X17: retrieval and generation agree on a router whose index was built
    from its corpus. Every template phase 2 returns is a prompt of the
    corpus, field for field (with the document text besides), and when its
    id is a string and the prompts of the corpus all have an id, the lookup
    of phase 4 finds a template for that id: phase 4 does not answer that
    the prompt could not be found. *)
Theorem retrieved_templates_are_in_corpus self user_query top_categories t top_3 p :
  index_of_corpus self ->
  fst (fst (phase_2_search user_query top_categories self t)) = Return top_3 ->
  In p top_3 ->
  exists prompt,
    In prompt (prompts self)
    /\ (forall k, k <> "document" -> dict_get p k = dict_get prompt k)
    /\ (forall i,
          dict_get p "id" = Some (JStr i) ->
          all_have_id (prompts self) ->
          exists found, next_with_id (prompts self) i = Return (Some found)).
Proof.
  intros (pts & Hcoll & _ & Hheld) Hrun Hin.
  rewrite phase_2_search_run, Hcoll in Hrun. cbv zeta in Hrun. cbn [fst] in Hrun.
  destruct (getitems _ "id") as [ids | e]; [ | discriminate Hrun].
  injection Hrun as <-.
  destruct (retrieved_stored _ _ _ _ _ Hin) as (pt & Hpt & <-).
  destruct (@Forall2_In_left _ _ _ _ _ pt Hheld Hpt) as (prompt & Hprompt & Hholds).
  exists prompt. split; [exact Hprompt | split; [exact Hholds | ]].
  intros i Hid Hids.
  rewrite (next_with_id_found _ Hids).
  destruct (find (has_id i) (prompts self)) as [found | ] eqn:Hfind; [eauto | ].
  exfalso.
  pose proof (find_none _ _ Hfind prompt Hprompt) as Hno.
  unfold has_id in Hno.
  rewrite <- (Hholds "id"), Hid in Hno by discriminate.
  simpl in Hno. rewrite String.eqb_refl in Hno. discriminate Hno.
Qed.

Lemma retrieved_templates_are_in_corpus_witness :
  exists prompt,
    In prompt [Scenario.P1; Scenario.P2]
    /\ (forall k, k <> "document" -> dict_get Scenario.P1 k = dict_get prompt k)
    /\ (forall i,
          dict_get Scenario.P1 "id" = Some (JStr i) ->
          all_have_id [Scenario.P1; Scenario.P2] ->
          exists found, next_with_id [Scenario.P1; Scenario.P2] i = Return (Some found)).
Proof.
  apply (@retrieved_templates_are_in_corpus
           (Scenario.router (Scenario.answering EmptyString))
           Scenario.ask ["Prospecting"] [] [Scenario.P1] Scenario.P1).
  - exists [ {| point_id := 0; payload := Scenario.P1 |};
             {| point_id := 1; payload := Scenario.P2 |} ].
    split; [reflexivity | split; [reflexivity | ]].
    repeat constructor; intros k _; reflexivity.
  - reflexivity.
  - left. reflexivity.
Defined.

(* ================================================================== *)
(** ** The run from the command line *)
(* ================================================================== *)

Section SlotFacts.
Variable user_response : string.

Lemma fold_write_keeps missing : forall c k,
  dict_get c k = Some (JStr user_response) ->
  dict_get (fold_left (fun c k => dict_set c k (JStr user_response)) missing c) k = Some (JStr user_response).
Proof.
  induction missing as [ | a rest IH]; intros c k Hk; simpl; [exact Hk | ].
  apply IH.
  destruct (String.eqb k a) eqn:Hka.
  - apply String.eqb_eq in Hka. subst a. apply dict_get_set_same.
  - rewrite dict_get_set_other; [exact Hk | ].
    intros ->. rewrite String.eqb_refl in Hka. discriminate Hka.
Qed.

Lemma fold_write_in missing : forall c k,
  In k missing ->
  dict_get (fold_left (fun c k => dict_set c k (JStr user_response)) missing c) k = Some (JStr user_response).
Proof.
  induction missing as [ | a rest IH]; intros c k Hin; simpl; [inversion Hin | ].
  destruct (String.eqb k a) eqn:Hka.
  - apply String.eqb_eq in Hka. subst a.
    apply fold_write_keeps. apply dict_get_set_same.
  - destruct Hin as [-> | Hin]; [rewrite String.eqb_refl in Hka; discriminate Hka | ].
    apply IH, Hin.
Qed.

Lemma fold_write_out missing : forall c k,
  ~ In k missing -> dict_get (fold_left (fun c k => dict_set c k (JStr user_response)) missing c) k = dict_get c k.
Proof.
  induction missing as [ | a rest IH]; intros c k Hout; simpl; [reflexivity | ].
  rewrite IH by (intros Hin; apply Hout; right; exact Hin).
  apply dict_get_set_other.
  intros ->. apply Hout. left. reflexivity.
Qed.
End SlotFacts.

(** X18: what the interaction loop of the command-line run writes and
    what it leaves. After it the user's answer is the value of every
    missing key and of ["user_provided"], and every other key of the
    context has the value it had. *)
Theorem fill_slots_writes context missing_keys user_response :
  (forall k, In k missing_keys ->
             dict_get (fill_slots context missing_keys user_response) k
             = Some (JStr user_response))
  /\ dict_get (fill_slots context missing_keys user_response) "user_provided"
     = Some (JStr user_response)
  /\ (forall k, ~ In k missing_keys -> k <> "user_provided" ->
                dict_get (fill_slots context missing_keys user_response) k
                = dict_get context k).
Proof.
  unfold fill_slots. split; [ | split].
  - intros k Hin. apply fold_write_in, Hin.
  - apply fold_write_keeps, dict_get_set_same.
  - intros k Hout Hne. rewrite fold_write_out by exact Hout.
    apply dict_get_set_other, Hne.
Qed.

Lemma fill_slots_writes_witness :
  dict_get (fill_slots mock_context ["company"; "pain_point"] "Stripe, slow payouts")
           "pain_point"
  = Some (JStr "Stripe, slow payouts")
  /\ dict_get (fill_slots mock_context ["company"; "pain_point"] "Stripe, slow payouts")
              "prospect"
     = dict_get mock_context "prospect".
Proof.
  destruct (fill_slots_writes mock_context ["company"; "pain_point"] "Stripe, slow payouts")
    as (Hin & _ & Hout).
  split.
  - apply Hin. right. left. reflexivity.
  - apply Hout.
    + intros [H | [H | []]]; discriminate H.
    + discriminate.
Defined.

Lemma dict_keys_get d k : In k (dict_keys d) -> exists v, dict_get d k = Some v.
Proof.
  induction d as [ | [k' v'] rest IH]; simpl; [intros [] | ].
  destruct (String.eqb k' k) eqn:Hk; [eauto | ].
  intros [-> | Hin]; [rewrite String.eqb_refl in Hk; discriminate Hk | exact (IH Hin)].
Qed.

(** X19: slot filling closes the gap. If the missing keys the specialist
    reported cover the variables of a template that are not keys of the
    context, then after the interaction loop no variable of the template is
    absent from the context. *)
Theorem fill_slots_leaves_nothing_missing p context missing_keys user_response :
  (forall v, In v (variables_not_in_context p context) -> In v missing_keys) ->
  variables_not_in_context p (fill_slots context missing_keys user_response) = [].
Proof.
  intros Hcover.
  set (filled := fill_slots context missing_keys user_response).
  destruct (variables_not_in_context p filled) as [ | v rest] eqn:Hleft; [reflexivity | ].
  exfalso.
  assert (Hv : In v (variables_not_in_context p filled))
    by (rewrite Hleft; left; reflexivity).
  unfold variables_not_in_context in Hv.
  apply filter_In in Hv. destruct Hv as [Hvar Habsent].
  assert (Hkey : In v (dict_keys filled)).
  { destruct (mem_str v (dict_keys context)) eqn:Hctx.
    - apply mem_str_In in Hctx. destruct (dict_keys_get _ _ Hctx) as (x & Hx).
      destruct (in_dec string_dec v missing_keys) as [Hm | Hm].
      + apply (dict_get_keys filled v (v := JStr user_response)).
        apply fold_write_in, Hm.
      + destruct (string_dec v "user_provided") as [-> | Hne].
        * apply (dict_get_keys filled "user_provided" (v := JStr user_response)).
          apply fold_write_keeps, dict_get_set_same.
        * apply (dict_get_keys filled v (v := x)). unfold filled, fill_slots.
          rewrite fold_write_out by exact Hm.
          rewrite dict_get_set_other by exact Hne. exact Hx.
    - assert (Hm : In v missing_keys).
      { apply Hcover. unfold variables_not_in_context.
        apply filter_In. split; [exact Hvar | rewrite Hctx; reflexivity]. }
      apply (dict_get_keys filled v (v := JStr user_response)).
      apply fold_write_in, Hm. }
  rewrite (In_mem_str _ _ Hkey) in Habsent. discriminate Habsent.
Qed.

Lemma fill_slots_leaves_nothing_missing_witness :
  variables_not_in_context Scenario.P1 (fill_slots Scenario.sarah ["company"] "Stripe") = [].
Proof.
  apply fill_slots_leaves_nothing_missing.
  intros v Hv. vm_compute in Hv. exact Hv.
Defined.

Lemma rank_nil A (sc : A -> Z) : rank sc [] = [].
Proof. reflexivity. Qed.

(** X20: the run stops when nothing is retrieved. If the dispatcher's
    answer validates and no stored template has its category among the
    categories it names, the run ends with the notice that no prompt was
    retrieved: phases 3 and 4 are not run, and the one request of phase 1
    and the one query of phase 2 are all the calls it made. *)
Theorem main_stops_without_prompts rt user_input self t d pts :
  structured_answer rt (client self)
    (dispatcher_request rt (category_summary self) test_query)
    "DispatcherDecision" validate_DispatcherDecision = Return d ->
  find_collection (collections (qdrant self)) (collection_name self) = Some pts ->
  (forall p, In p pts -> ~ category_in (categories d) (payload p)) ->
  main rt user_input self t
  = (Return PipelineStopped, self,
     (t ++ [GenerateContent (dispatcher_request rt (category_summary self) test_query);
            QdrantQuery (collection_name self) test_query
                        (by_category (categories d)) 3])%list).
Proof.
  intros Hanswer Hcoll Hnone.
  unfold main, try_except, bind.
  rewrite phase_1_dispatcher_run, Hanswer.
  rewrite phase_2_search_run, Hcoll. cbv zeta.
  rewrite (retrieved_none _ _ _ Hnone).
  cbn [getitems]. unfold ret.
  rewrite <- app_assoc. reflexivity.
Qed.

Lemma main_stops_without_prompts_witness :
  main reference_runtime (Return "unused")
    (Scenario.router (Scenario.answering
       (Scenario.dispatcher_says ["Negotiation"; "Closing"] "price pushback")))
    []
  = (Return PipelineStopped,
     Scenario.router (Scenario.answering
       (Scenario.dispatcher_says ["Negotiation"; "Closing"] "price pushback")),
     ([] ++ [GenerateContent
               (dispatcher_request reference_runtime
                  (category_summary
                     (Scenario.router (Scenario.answering
                        (Scenario.dispatcher_says ["Negotiation"; "Closing"]
                           "price pushback"))))
                  test_query);
             QdrantQuery
               (collection_name
                  (Scenario.router (Scenario.answering
                     (Scenario.dispatcher_says ["Negotiation"; "Closing"]
                        "price pushback"))))
               test_query
               (by_category
                  (categories {| categories := ["Negotiation"; "Closing"];
                                 reasoning := "price pushback" |})) 3])%list).
Proof.
  apply (@main_stops_without_prompts reference_runtime (Return "unused")
           (Scenario.router (Scenario.answering
              (Scenario.dispatcher_says ["Negotiation"; "Closing"] "price pushback")))
           []
           {| categories := ["Negotiation"; "Closing"]; reasoning := "price pushback" |}
           [ {| point_id := 0; payload := Scenario.P1 |};
             {| point_id := 1; payload := Scenario.P2 |} ]).
  - vm_compute. reflexivity.
  - reflexivity.
  - intros p [<- | [<- | []]] (c & Hc & Hin); simpl in Hc;
      injection Hc as <-; destruct Hin as [H | [H | []]]; discriminate H.
Defined.

(** X21: the run generates even when the specialist selects nothing. If
    the specialist answers "NONE", the run still calls phase 4, with "NONE"
    as the prompt id. On a corpus where no template has that id: when the
    templates all have an ['id'], what the run prints as the final artifact
    is the message "Error: Could not find prompt in database."; when some
    template has no ['id'], the run ends with the notice of the error it
    caught, [KeyError('id')]. Either way two requests went to the
    Generation Client, none of them for generation. *)
Theorem main_generates_on_none rt user_input self t d top_3 decision :
  structured_answer rt (client self)
    (dispatcher_request rt (category_summary self) test_query)
    "DispatcherDecision" validate_DispatcherDecision = Return d ->
  fst (fst (phase_2_search test_query (categories d) self [])) = Return top_3 ->
  top_3 <> [] ->
  structured_answer rt (client self)
    (specialist_request rt test_query top_3 mock_context)
    "SpecialistDecision" validate_SpecialistDecision = Return decision ->
  selected_prompt_id decision = "NONE" ->
  missing_variables decision = [] \/ (exists answer, user_input = Return answer) ->
  no_template_with_id "NONE" (prompts self) ->
  let calls :=
    [GenerateContent (dispatcher_request rt (category_summary self) test_query);
     QdrantQuery (collection_name self) test_query (by_category (categories d)) 3;
     GenerateContent (specialist_request rt test_query top_3 mock_context)] in
  (all_have_id (prompts self) ->
   main rt user_input self t
   = (Return (FinalArtifact "Error: Could not find prompt in database."), self,
      (t ++ calls)%list))
  /\ (some_without_id (prompts self) ->
      main rt user_input self t
      = (Return (ErrorEncountered (KeyError "id")), self, (t ++ calls)%list)).
Proof.
  intros Hanswer Hsearch Hsome Hspecialist Hnone Hinput Hmiss. cbv zeta.
  destruct (next_with_id_miss Hmiss) as [Hall Hwithout].
  unfold main, try_except, bind.
  rewrite phase_1_dispatcher_run, Hanswer.
  rewrite phase_2_search_run in Hsearch |- *.
  destruct (find_collection (collections (qdrant self)) (collection_name self))
    as [pts | ]; [ | discriminate Hsearch].
  cbv zeta in Hsearch |- *. cbn [fst] in Hsearch.
  set (found := retrieved _ _ _ _) in Hsearch |- *.
  destruct (getitems found "id") as [ids | e]; [ | discriminate Hsearch].
  assert (Hfound : found = top_3) by congruence.
  clearbody found. subst found.
  destruct top_3 as [ | first others]; [contradiction | ].
  rewrite phase_3_specialist_run, Hspecialist, Hnone.
  split; intros Hids.
  - assert (Hphase4 : forall context t0,
              phase_4_generator rt "NONE" context self t0 = (Return not_found, self, t0)).
    { intros context t0. unfold phase_4_generator, bind, get, lift.
      rewrite (Hall Hids). reflexivity. }
    destruct (missing_variables decision) as [ | key keys].
    + unfold ret. rewrite Hphase4.
      rewrite <- !app_assoc. reflexivity.
    + destruct Hinput as [Hempty | (answer & ->)]; [discriminate Hempty | ].
      unfold lift, ret. rewrite Hphase4.
      rewrite <- !app_assoc. reflexivity.
  - assert (Hphase4 : forall context t0,
              phase_4_generator rt "NONE" context self t0
              = (Raise (KeyError "id"), self, t0)).
    { intros context t0. unfold phase_4_generator, bind, get, lift.
      rewrite (Hwithout Hids). reflexivity. }
    destruct (missing_variables decision) as [ | key keys].
    + unfold ret. rewrite Hphase4.
      rewrite <- !app_assoc. reflexivity.
    + destruct Hinput as [Hempty | (answer & ->)]; [discriminate Hempty | ].
      unfold lift, ret. rewrite Hphase4.
      rewrite <- !app_assoc. reflexivity.
Qed.

Lemma main_generates_on_none_witness :
  main reference_runtime (Return "unused") Fixtures.undecided_router []
  = (Return (FinalArtifact "Error: Could not find prompt in database."),
     Fixtures.undecided_router,
     ([] ++ [GenerateContent
               (dispatcher_request reference_runtime
                  (category_summary Fixtures.undecided_router) test_query);
             QdrantQuery (collection_name Fixtures.undecided_router) test_query
               (by_category
                  (categories {| categories := ["Prospecting"; "Objection Handling"];
                                 reasoning := "price pushback" |})) 3;
             GenerateContent
               (specialist_request reference_runtime test_query
                  [Scenario.P2; Scenario.P1] mock_context)])%list).
Proof.
  refine (proj1 (@main_generates_on_none reference_runtime (Return "unused")
                   Fixtures.undecided_router []
                   {| categories := ["Prospecting"; "Objection Handling"];
                      reasoning := "price pushback" |}
                   [Scenario.P2; Scenario.P1]
                   {| selected_prompt_id := "NONE";
                      missing_variables := [];
                      clarifying_question := "Nothing fits; what do you need?" |}
                   _ _ _ _ _ _ _) _).
  - vm_compute. reflexivity.
  - reflexivity.
  - discriminate.
  - vm_compute. reflexivity.
  - reflexivity.
  - left. reflexivity.
  - repeat constructor.
  - repeat constructor; discriminate.
Defined.

(* ================================================================== *)
(** ** A candidate without an id *)
(* ================================================================== *)

Lemma next_with_id_stumbles before bad after wanted :
  Forall (other_id wanted) before ->
  dict_get bad "id" = None ->
  next_with_id (before ++ bad :: after) wanted = Raise (KeyError "id").
Proof.
  intros Hbefore Hbad.
  induction Hbefore as [ | p rest (v & Hget & Hne) _ IH]; simpl.
  - unfold getitem. rewrite Hbad. reflexivity.
  - unfold getitem. rewrite Hget, Hne. exact IH.
Qed.

(** X22: one candidate without an ['id'] loses the decision. When phase 3
    returns a decision that selects an id, and the [top3] of the request
    has an element without ['id'] before any element with the selected id,
    [/api/phase3] answers 500 with the detail ['id'], although the model
    was asked and answered: the decision is not in the response. *)
Theorem phase3_candidate_without_id_is_500
    rt raw v req self t d self' t' before bad after :
  json_loads rt raw = Some v ->
  Phase3Request.validate v = Some req ->
  phase_3_specialist rt (Phase3Request.query req) (Phase3Request.top3 req)
    (Phase3Request.context req) self t = (Return d, self', t') ->
  selected_prompt_id d <> "NONE" ->
  Phase3Request.top3 req = (before ++ bad :: after)%list ->
  Forall (other_id (selected_prompt_id d)) before ->
  dict_get bad "id" = None ->
  serve rt Phase3 raw self t
  = (Return {| status := 500; body := detail_body (JStr (squote ++ "id" ++ squote)) |},
     self', t').
Proof.
  intros Hv Hreq Hrun Hsel Htop Hbefore Hbad.
  rewrite (serve_run rt Phase3 raw self t Hv).
  unfold accepted. rewrite Hv, Hreq. cbn [option_map].
  unfold answer_of, try_phase_3, bind. rewrite Hrun.
  destruct (String.eqb (selected_prompt_id d) "NONE") eqn:Hnone.
  - apply String.eqb_eq in Hnone. contradiction.
  - cbn [negb]. unfold lift.
    rewrite Htop, (next_with_id_stumbles _ _ Hbefore Hbad). reflexivity.
Qed.

Lemma phase3_candidate_without_id_is_500_witness :
  serve reference_runtime Phase3
    (Codec.dumps (JObj [("query", JStr Scenario.ask);
                        ("top3", JArr [JObj Scenario.P2;
                                       JObj [("use_case", JStr "untitled")];
                                       JObj Scenario.P1]);
                        ("context", JObj Scenario.sarah)]))
    (Scenario.router (Scenario.answering
       (Scenario.specialist_says "P1" ["company"] "Which company?")))
    []
  = (Return {| status := 500; body := detail_body (JStr (squote ++ "id" ++ squote)) |},
     Scenario.router (Scenario.answering
       (Scenario.specialist_says "P1" ["company"] "Which company?")),
     [GenerateContent
        (specialist_request reference_runtime Scenario.ask
           [Scenario.P2; [("use_case", JStr "untitled")]; Scenario.P1] Scenario.sarah)]).
Proof.
  apply (@phase3_candidate_without_id_is_500 reference_runtime _
           (JObj [("query", JStr Scenario.ask);
                  ("top3", JArr [JObj Scenario.P2;
                                 JObj [("use_case", JStr "untitled")];
                                 JObj Scenario.P1]);
                  ("context", JObj Scenario.sarah)])
           {| Phase3Request.query := Scenario.ask;
              Phase3Request.top3 := [Scenario.P2; [("use_case", JStr "untitled")]; Scenario.P1];
              Phase3Request.context := Scenario.sarah |}
           _ []
           {| selected_prompt_id := "P1";
              missing_variables := ["company"];
              clarifying_question := "Which company?" |}
           _ _
           [Scenario.P2] [("use_case", JStr "untitled")] [Scenario.P1]).
  - vm_compute. reflexivity.
  - reflexivity.
  - vm_compute. reflexivity.
  - discriminate.
  - reflexivity.
  - repeat constructor. eexists. split; reflexivity.
  - reflexivity.
Defined.
